(** * Polar-plant dashboard: loading and aggregation (main.py)

    A shallow embedding of the data pipeline of [main.py]: the school
    registry [EC_MAPPING], the two loaders
    [load_and_preprocess_env_data] and [load_and_preprocess_growth_data],
    the pandas [groupby(...).agg(...)] summaries they compute, the
    EC display label and its reverse lookup, and the raw-data tables and
    downloads of the two data tabs.

    Numbers: a float cell is modelled as an exact rational ([Qc]); a
    missing value (NaN, NaT) as [None].  Rounding of float64 is not
    modelled. *)

From Stdlib Require Import Ascii String.
From Stdlib Require Import List Bool Arith Lia ZArith QArith Qround Qcanon.
From Stdlib Require Import Sorted DecimalString DecimalPos DecimalN OrderedTypeEx.
Import ListNotations.

Set Implicit Arguments.
Local Open Scope list_scope.

(* ================================================================== *)
(** ** Numbers *)

Module Num.

(** [float(n)] for an integer literal. *)
Definition of_Z (z : Z) : Qc := Q2Qc (inject_Z z).

(** A decimal literal [n / d]. *)
Definition frac (n : Z) (d : positive) : Qc := Q2Qc (n # d).

Definition eqb (x y : Qc) : bool := Qeq_bool x y.
Definition leb (x y : Qc) : bool := Qle_bool x y.

End Num.

(* ================================================================== *)
(** ** Group keys

    The two [groupby] calls group by [school] (text) and by [ec_goal]
    (number).  pandas compares keys for equality when it factorizes the
    key column and orders the distinct keys when [sort=True], the
    default.  Text is ordered as Python orders [str]: by code point,
    which on UTF-8 text is the order of the bytes. *)

Class Key (K : Type) := {
  key_eqb : K -> K -> bool;
  key_leb : K -> K -> bool
}.

#[export] Instance string_Key : Key string := {
  key_eqb := String.eqb;
  key_leb := String.leb
}.

#[export] Instance number_Key : Key Qc := {
  key_eqb := Num.eqb;
  key_leb := Num.leb
}.

(** The laws of a key type: equality test and total order. *)
Class KeyLaws (K : Type) `{Key K} := {
  key_eqb_eq : forall x y : K, key_eqb x y = true <-> x = y;
  key_leb_total : forall x y : K, key_leb x y = true \/ key_leb y x = true;
  key_leb_antisym : forall x y : K, key_leb x y = true -> key_leb y x = true -> x = y;
  key_leb_trans : forall x y z : K, key_leb x y = true -> key_leb y z = true -> key_leb x z = true
}.
Arguments KeyLaws K {_}.

(** The order of the keys, as relations: ascending and strictly
    ascending. *)
Definition key_le {K} `{Key K} (x y : K) : Prop := key_leb x y = true.
Definition key_lt {K} `{Key K} (x y : K) : Prop := key_leb x y = true /\ x <> y.

(* ================================================================== *)
(** ** pandas aggregation functions *)

Module Agg.

(** The accumulator of a grouped mean: number of observations and
    running sum.  A missing value leaves both untouched. *)
Definition mean_step (acc : nat * Qc) (v : option Qc) : nat * Qc :=
  match v with
  | Some x => (S (fst acc), (snd acc + x)%Qc)
  | None => acc
  end.

Definition mean_acc (vs : list (option Qc)) : nat * Qc :=
  fold_left mean_step vs (O, Q2Qc 0).

(** ['mean']: sum of the observed values over their number; NaN for a
    group without observed values. *)
Definition mean (vs : list (option Qc)) : option Qc :=
  let '(nobs, sumx) := mean_acc vs in
  match nobs with
  | O => None
  | S _ => Some (sumx / Num.of_Z (Z.of_nat nobs))%Qc
  end.

(** ['count']: the number of non-null entries of the column. *)
Definition count {A} (notna : A -> bool) (vs : list A) : nat :=
  length (filter notna vs).

(** ['first']: the first non-null entry of the column. *)
Fixpoint first {A} (vs : list (option A)) : option A :=
  match vs with
  | [] => None
  | Some x :: _ => Some x
  | None :: vs' => first vs'
  end.

End Agg.

(** The entries of a column that are not missing. *)
Definition present {A} (vs : list (option A)) : list A :=
  flat_map (fun v => match v with Some x => [x] | None => [] end) vs.

(** The values of a column that a group holds, missing ones left out. *)
Definition observed {R} (column : R -> option Qc) (grp : list R) : list Qc :=
  present (map column grp).

Definition total (xs : list Qc) : Qc := fold_right Qcplus (Q2Qc 0) xs.

(** The arithmetic mean as the specification states it: the sum of the
    values divided by how many there are; undefined for no values. *)
Definition arithmetic_mean (xs : list Qc) : option Qc :=
  match xs with
  | [] => None
  | _ :: _ => Some (total xs / Num.of_Z (Z.of_nat (length xs)))%Qc
  end.

(* ================================================================== *)
(** ** groupby *)

Section GroupBy.
Context {K R : Type} `{Key K}.
Variable key : R -> K.

(** Factorization: the distinct keys in order of first occurrence. *)
Fixpoint uniques (seen ks : list K) : list K :=
  match ks with
  | [] => []
  | k :: ks' =>
      if existsb (key_eqb k) seen then uniques seen ks'
      else k :: uniques (k :: seen) ks'
  end.

(** [sort=True]: the distinct keys in ascending order. *)
Fixpoint insert_key (k : K) (l : list K) : list K :=
  match l with
  | [] => [k]
  | h :: t => if key_leb k h then k :: l else h :: insert_key k t
  end.

Definition sort_keys (l : list K) : list K := fold_right insert_key [] l.

Definition group_keys (rows : list R) : list K :=
  sort_keys (uniques [] (map key rows)).

(** The rows of one group, in table order. *)
Definition group_rows (k : K) (rows : list R) : list R :=
  filter (fun r => key_eqb (key r) k) rows.

Definition groupby (rows : list R) : list (K * list R) :=
  map (fun k => (k, group_rows k rows)) (group_keys rows).

End GroupBy.

(* ================================================================== *)
(** ** Text helpers (str and pathlib operations used by the loaders) *)

Module Text.
Local Open Scope string_scope.

(** [c.lower()] on the ASCII letters. *)
Definition lower_ascii (c : ascii) : ascii :=
  let n := nat_of_ascii c in
  if (65 <=? n)%nat && (n <=? 90)%nat then ascii_of_nat (n + 32) else c.

Fixpoint lower (s : string) : string :=
  match s with
  | EmptyString => EmptyString
  | String c s' => String (lower_ascii c) (lower s')
  end.

(** The part of [s] that starts at its last ['.'], if it has one. *)
Fixpoint from_last_dot (s : string) : option string :=
  match s with
  | EmptyString => None
  | String c s' =>
      match from_last_dot s' with
      | Some t => Some t
      | None => if Ascii.eqb c "." then Some s else None
      end
  end.

(** [PurePath.suffix]: with [i = name.rfind('.')], the text [name[i:]]
    when [0 < i < len(name) - 1], the empty text otherwise. *)
Definition suffix (name : string) : string :=
  match name with
  | EmptyString => ""
  | String _ rest =>
      match from_last_dot rest with
      | Some t => if (String.length t =? 1)%nat then "" else t
      | None => ""
      end
  end.

(** [tok in s]. *)
Definition contains (tok s : string) : bool :=
  match String.index 0 tok s with
  | Some _ => true
  | None => false
  end.

(** [s.split(sep)[0]] for a one-character separator: the text before
    the first [sep], all of [s] when there is none. *)
Fixpoint split_head (sep : ascii) (s : string) : string :=
  match s with
  | EmptyString => EmptyString
  | String c s' => if Ascii.eqb c sep then EmptyString else String c (split_head sep s')
  end.

End Text.

(* ================================================================== *)
(** ** The school registry *)

Record SchoolConfig := {
  EC_goal : Qc;
  color : string
}.

(** [EC_MAPPING]: a dict literal; [items()] and [keys()] iterate in the
    order of the literal. *)
Definition EC_MAPPING : list (string * SchoolConfig) :=
  [ ("송도고"%string, {| EC_goal := Num.of_Z 1; color := "#1f77b4" |});
    ("하늘고"%string, {| EC_goal := Num.of_Z 2; color := "#2ca02c" |});
    ("아라고"%string, {| EC_goal := Num.of_Z 4; color := "#ff7f0e" |});
    ("동산고"%string, {| EC_goal := Num.of_Z 8; color := "#d62728" |}) ].

(** [mapping[name]] / [name in mapping]. *)
Fixpoint lookup {V} (name : string) (mapping : list (string * V)) : option V :=
  match mapping with
  | [] => None
  | (k, v) :: rest => if String.eqb name k then Some v else lookup name rest
  end.
Arguments lookup {V} name mapping : simpl never.

(* ================================================================== *)
(** ** The EC display label and its reverse lookup *)

Module Label.
Local Open Scope string_scope.

Definition digit (d : Z) : ascii := ascii_of_nat (48 + Z.to_nat d).

Definition str_of_nonneg (n : Z) : string :=
  NilZero.string_of_uint (N.to_uint (Z.to_N n)).

(** The digits after the point, by long division of remainder [r] by
    [d]; stops when the remainder vanishes. *)
Fixpoint frac_digits (fuel : nat) (r d : Z) : string :=
  match fuel with
  | O => ""
  | S fuel' =>
      if (r =? 0)%Z then ""
      else String (digit (r * 10 / d)) (frac_digits fuel' (r * 10 mod d) d)
  end.

(** [str(x)] of a float, as [astype(str)] renders the cells of a
    float64 column: sign, integer part, point, and the fraction digits
    with at least one digit, so [1.0] gives ["1.0"].  This is the
    positional form Python uses for magnitudes between [1e-4] and
    [1e16]; the fraction is cut at 17 digits.  It is the text of a
    float where the float is the rational itself and is printed in
    that form, as the whole numbers of magnitude up to [2^53] are; the
    properties below use it on such values only. *)
Definition str_of_float (x : Qc) : string :=
  let n := Qnum x in
  let d := Zpos (Qden x) in
  let a := Z.abs n in
  let fd := frac_digits 17 (a mod d) d in
  (if (n <? 0)%Z then "-" else "") ++
  str_of_nonneg (a / d) ++ "." ++ (if String.eqb fd "" then "0" else fd).

(** Line 161: [astype(str) + ' EC']. *)
Definition ec_label (ec_goal : Qc) : string := str_of_float ec_goal ++ " EC".

Fixpoint split_at_dot (s : string) : string * option string :=
  match s with
  | EmptyString => (EmptyString, None)
  | String c s' =>
      if Ascii.eqb c "." then (EmptyString, Some s')
      else let '(a, b) := split_at_dot s' in (String c a, b)
  end.

Definition digits_value (s : string) : option Z :=
  option_map (fun u => Z.of_N (N.of_uint u)) (NilEmpty.uint_of_string s).

Definition unsigned_float (s : string) : option Qc :=
  let '(ip, fp) := split_at_dot s in
  let fp := match fp with Some t => t | None => "" end in
  if String.eqb ip "" && String.eqb fp "" then None
  else
    match digits_value ip, digits_value fp with
    | Some i, Some f =>
        Some (Num.of_Z i + Num.frac f (Pos.pow 10 (Pos.of_nat (String.length fp))))%Qc
    | _, _ => None
    end.

(** [float(s)] on plain decimal text: an optional minus sign, digits,
    and an optional point followed by digits.  [None] stands for the
    [ValueError] Python raises.  Exponents, [inf], [nan], underscores
    and surrounding blanks are outside this fragment. *)
Definition float_of_str (s : string) : option Qc :=
  match s with
  | String "-" s' => option_map Qcopp (unsigned_float s')
  | _ => unsigned_float s
  end.

(** Line 386: the school whose registry entry carries the EC value the
    label starts with,
    [[s for s, data in EC_MAPPING.items()
        if data['EC_goal'] == float(label.split(' ')[0])][0]].
    [None] stands for the exception raised when the text is no number
    ([ValueError]) or no school matches ([IndexError]). *)
Definition schools_with_goal (mapping : list (string * SchoolConfig)) (x : Qc) : list string :=
  map fst (filter (fun e => Num.eqb (EC_goal (snd e)) x) mapping).

Definition school_of_label (mapping : list (string * SchoolConfig)) (label : string)
  : option string :=
  match float_of_str (Text.split_head " " label) with
  | None => None
  | Some x => hd_error (schools_with_goal mapping x)
  end.

End Label.

(* ================================================================== *)
(** ** Cells, frames and the files of the data directory *)

(** What a cell of a parsed CSV or sheet holds, and what a cell of a
    rendered table holds. *)
Inductive cell :=
| Blank                    (* NaN / NaT / None *)
| Number (q : Qc)
| Text (s : string)
| Stamp (t : Z).           (* a point in time *)

(** [pd.notna]. *)
Definition notna (c : cell) : bool :=
  match c with
  | Blank => false
  | _ => true
  end.

Definition is_some {A} (o : option A) : bool :=
  match o with
  | Some _ => true
  | None => false
  end.

(** A DataFrame seen by position: its column labels and its rows. *)
Record DataFrame := {
  columns : list string;
  rows : list (list cell)
}.

(** [row[i]]; a row of a frame has one cell per column. *)
Definition cell_at (i : nat) (row : list cell) : cell := nth i row Blank.

(** A library call that may raise. *)
Inductive outcome (A : Type) :=
| Raises
| Returns (a : A).
Arguments Raises {A}.
Arguments Returns {A} a.

(** [pd.ExcelFile]: the sheet names and [xls.parse(name)]. *)
Record ExcelFile := {
  sheet_names : list string;
  parse : string -> outcome DataFrame
}.

(** An entry of [data_dir.iterdir()], with what reading it yields. *)
Record Path := {
  name : string;
  is_file : bool;
  read_csv : outcome DataFrame;        (* pd.read_csv(path, encoding='utf-8') *)
  open_excel : outcome ExcelFile       (* pd.ExcelFile(path, engine='openpyxl') *)
}.

(** What the loaders report through [st.error] and [st.warning]. *)
Inductive message :=
| EnvFileLoadError (normalized_name : string)     (* line 79 *)
| NoValidEnvFiles                                 (* line 82 *)
| NoGrowthFile                                    (* line 118 *)
| GrowthFileReadError                             (* line 126 *)
| GrowthSheetLoadWarning (sheet_name : string)    (* line 146 *)
| NoValidGrowthSheets.                            (* line 149 *)

(* ================================================================== *)
(** ** Records of the unified tables and of the summaries *)

Module EnvironmentRecord.
Record t := {
  time : option Z;
  temperature : option Qc;
  humidity : option Qc;
  ph : option Qc;
  ec : option Qc;
  school : string;
  ec_goal : Qc
}.
End EnvironmentRecord.

Module GrowthRecord.
Record t := {
  individual_id : cell;
  leaf_count : option Qc;
  shoot_length : option Qc;
  root_length : option Qc;
  fresh_weight : option Qc;
  school : string;
  ec_goal : Qc
}.
End GrowthRecord.

Module EnvironmentSummary.
Record t := {
  school : string;
  avg_temp : option Qc;
  avg_humidity : option Qc;
  avg_ph : option Qc;
  avg_ec : option Qc;
  ec_goal : option Qc;
  count : nat
}.
End EnvironmentSummary.

(** The growth summary; [ec_goal] is a number when the summary comes out
    of [agg] and the display label after line 161. *)
Module GrowthSummary.
Record t (key : Type) := {
  ec_goal : key;
  avg_fresh_weight : option Qc;
  avg_leaf_count : option Qc;
  avg_shoot_length : option Qc;
  count : nat
}.
Arguments ec_goal {key} _.
Arguments avg_fresh_weight {key} _.
Arguments avg_leaf_count {key} _.
Arguments avg_shoot_length {key} _.
Arguments count {key} _.
End GrowthSummary.

(* ================================================================== *)
(** ** The aggregator *)

(** Lines 88-95: [env_df.groupby('school').agg(...).reset_index()]. *)
Definition env_summary_row (g : string * list EnvironmentRecord.t) : EnvironmentSummary.t :=
  let '(k, grp) := g in
  {| EnvironmentSummary.school := k;
     EnvironmentSummary.avg_temp := Agg.mean (map EnvironmentRecord.temperature grp);
     EnvironmentSummary.avg_humidity := Agg.mean (map EnvironmentRecord.humidity grp);
     EnvironmentSummary.avg_ph := Agg.mean (map EnvironmentRecord.ph grp);
     EnvironmentSummary.avg_ec := Agg.mean (map EnvironmentRecord.ec grp);
     EnvironmentSummary.ec_goal :=
       Agg.first (map (fun r => Some (EnvironmentRecord.ec_goal r)) grp);
     EnvironmentSummary.count := Agg.count is_some (map EnvironmentRecord.time grp) |}.

Definition env_summary (env_df : list EnvironmentRecord.t) : list EnvironmentSummary.t :=
  map env_summary_row (groupby EnvironmentRecord.school env_df).

(** Lines 155-160: [growth_df.groupby('ec_goal').agg(...).reset_index()]. *)
Definition growth_agg_row (g : Qc * list GrowthRecord.t) : GrowthSummary.t Qc :=
  let '(k, grp) := g in
  {| GrowthSummary.ec_goal := k;
     GrowthSummary.avg_fresh_weight := Agg.mean (map GrowthRecord.fresh_weight grp);
     GrowthSummary.avg_leaf_count := Agg.mean (map GrowthRecord.leaf_count grp);
     GrowthSummary.avg_shoot_length := Agg.mean (map GrowthRecord.shoot_length grp);
     GrowthSummary.count := Agg.count notna (map GrowthRecord.individual_id grp) |}.

Definition growth_agg (growth_df : list GrowthRecord.t) : list (GrowthSummary.t Qc) :=
  map growth_agg_row (groupby GrowthRecord.ec_goal growth_df).

(** Line 161: the key column rendered as the display label. *)
Definition relabel (s : GrowthSummary.t Qc) : GrowthSummary.t string :=
  {| GrowthSummary.ec_goal := Label.ec_label (GrowthSummary.ec_goal s);
     GrowthSummary.avg_fresh_weight := GrowthSummary.avg_fresh_weight s;
     GrowthSummary.avg_leaf_count := GrowthSummary.avg_leaf_count s;
     GrowthSummary.avg_shoot_length := GrowthSummary.avg_shoot_length s;
     GrowthSummary.count := GrowthSummary.count s |}.

Definition growth_summary (growth_df : list GrowthRecord.t) : list (GrowthSummary.t string) :=
  map relabel (growth_agg growth_df).

(* ================================================================== *)
(** ** The loaders *)

(** The library functions the loaders call on names and cells.
    [to_datetime col c] is the entry of [pd.to_datetime(col,
    errors='coerce')] for the cell [c] of the column [col] (pandas picks
    the format from the column), [None] being NaT; [to_numeric c] is the
    entry of [pd.to_numeric(col, errors='coerce')] for [c], [None] being
    NaN. *)
Class Library := {
  normalize_NFC : string -> string;
  to_datetime : list cell -> cell -> option Z;
  to_numeric : cell -> option Qc
}.

Section Loaders.
Context {lib : Library}.

(** Lines 66-68: [pd.to_datetime(df['time'], errors='coerce')] and
    [dropna(subset=['time'])]: the rows whose time is not NaT. *)
Definition time_column (df : DataFrame) : list cell := map (cell_at 0) (rows df).

Definition time_of (df : DataFrame) (row : list cell) : option Z :=
  to_datetime (time_column df) (cell_at 0 row).

Definition dropna_time (df : DataFrame) : list (list cell) :=
  filter (fun row => is_some (time_of df row)) (rows df).

(** Lines 67-75 on one kept row. *)
Definition env_record (df : DataFrame) (school_name : string) (cfg : SchoolConfig)
           (row : list cell) : EnvironmentRecord.t :=
  {| EnvironmentRecord.time := time_of df row;
     EnvironmentRecord.temperature := to_numeric (cell_at 1 row);
     EnvironmentRecord.humidity := to_numeric (cell_at 2 row);
     EnvironmentRecord.ph := to_numeric (cell_at 3 row);
     EnvironmentRecord.ec := to_numeric (cell_at 4 row);
     EnvironmentRecord.school := school_name;
     EnvironmentRecord.ec_goal := EC_goal cfg |}.

(** Lines 63-75, the body of the [try] after the registry test.
    Assigning five labels to [df.columns] raises unless the frame has
    five columns. *)
Definition read_env_csv (school_name : string) (cfg : SchoolConfig) (path : Path)
  : outcome (list EnvironmentRecord.t) :=
  match read_csv path with
  | Raises => Raises
  | Returns df =>
      if (List.length (columns df) =? 5)%nat
      then Returns (map (env_record df school_name cfg) (dropna_time df))
      else Raises
  end.

(** Lines 52 and 57: the file is an environment CSV. *)
Definition is_env_csv (path : Path) : bool :=
  is_file path && String.eqb (Text.lower (Text.suffix (name path))) ".csv"%string
  && Text.contains "환경데이터"%string (normalize_NFC (name path)).

(** Line 60. *)
Definition school_of_file (path : Path) : string :=
  Text.split_head "_"%char (normalize_NFC (name path)).

(** One turn of the loop of lines 51-79 on the state
    [(all_env_data, reported)]. *)
Definition env_step (st : list (list EnvironmentRecord.t) * list message) (path : Path)
  : list (list EnvironmentRecord.t) * list message :=
  if is_env_csv path then
    let school_name := school_of_file path in
    match lookup school_name EC_MAPPING with
    | None => st
    | Some cfg =>
        match read_env_csv school_name cfg path with
        | Returns df => (fst st ++ [df], snd st)
        | Raises => (fst st, snd st ++ [EnvFileLoadError (normalize_NFC (name path))])
        end
    end
  else st.

Definition env_loop (data_dir : list Path) : list (list EnvironmentRecord.t) * list message :=
  fold_left env_step data_dir ([], []).

(** [load_and_preprocess_env_data]: what it reports and the pair it
    returns.  [pd.DataFrame()] is the empty table. *)
Definition load_and_preprocess_env_data (data_dir : list Path)
  : list message * (list EnvironmentRecord.t * list EnvironmentSummary.t) :=
  let '(all_env_data, reported) := env_loop data_dir in
  match all_env_data with
  | [] => (reported ++ [NoValidEnvFiles], ([], []))
  | _ :: _ =>
      let env_df := concat all_env_data in
      (reported, (env_df, env_summary env_df))
  end.

(** Lines 136-143 on one row of a sheet. *)
Definition growth_record (sheet_name : string) (cfg : SchoolConfig) (row : list cell)
  : GrowthRecord.t :=
  {| GrowthRecord.individual_id := cell_at 0 row;
     GrowthRecord.leaf_count := to_numeric (cell_at 1 row);
     GrowthRecord.shoot_length := to_numeric (cell_at 2 row);
     GrowthRecord.root_length := to_numeric (cell_at 3 row);
     GrowthRecord.fresh_weight := to_numeric (cell_at 4 row);
     GrowthRecord.school := sheet_name;
     GrowthRecord.ec_goal := EC_goal cfg |}.

(** Lines 133-143, the body of the [try]. *)
Definition read_growth_sheet (xls : ExcelFile) (sheet_name : string) (cfg : SchoolConfig)
  : outcome (list GrowthRecord.t) :=
  match parse xls sheet_name with
  | Raises => Raises
  | Returns df =>
      if (List.length (columns df) =? 5)%nat
      then Returns (map (growth_record sheet_name cfg) (rows df))
      else Raises
  end.

(** One turn of the loop of lines 130-146. *)
Definition growth_step (xls : ExcelFile)
           (st : list (list GrowthRecord.t) * list message) (sheet_name : string)
  : list (list GrowthRecord.t) * list message :=
  match lookup sheet_name EC_MAPPING with
  | None => st
  | Some cfg =>
      match read_growth_sheet xls sheet_name cfg with
      | Returns df => (fst st ++ [df], snd st)
      | Raises => (fst st, snd st ++ [GrowthSheetLoadWarning sheet_name])
      end
  end.

(** Lines 110 and 113: the file is the growth workbook. *)
Definition is_growth_xlsx (path : Path) : bool :=
  is_file path && String.eqb (Text.lower (Text.suffix (name path))) ".xlsx"%string
  && Text.contains "생육결과데이터"%string (normalize_NFC (name path)).

(** Lines 108-115: the first such file. *)
Definition xlsx_path (data_dir : list Path) : option Path := find is_growth_xlsx data_dir.

Definition growth_loop (xls : ExcelFile) : list (list GrowthRecord.t) * list message :=
  fold_left (growth_step xls) (map normalize_NFC (sheet_names xls)) ([], []).

(** [load_and_preprocess_growth_data]. *)
Definition load_and_preprocess_growth_data (data_dir : list Path)
  : list message * (list GrowthRecord.t * list (GrowthSummary.t string)) :=
  match xlsx_path data_dir with
  | None => ([NoGrowthFile], ([], []))
  | Some path =>
      match open_excel path with
      | Raises => ([GrowthFileReadError], ([], []))
      | Returns xls =>
          let '(all_growth_data, reported) := growth_loop xls in
          match all_growth_data with
          | [] => (reported ++ [NoValidGrowthSheets], ([], []))
          | _ :: _ =>
              let growth_df := concat all_growth_data in
              (reported, (growth_df, growth_summary growth_df))
          end
      end
  end.

End Loaders.

(* ================================================================== *)
(** ** The raw-data tables and downloads of the two data tabs *)

Module Dashboard.

(** Lines 191-196: the rows of the selected school, or all rows. *)
Definition filter_env (selected_school : string) (env_df : list EnvironmentRecord.t)
  : list EnvironmentRecord.t :=
  if String.eqb selected_school "전체" then env_df
  else filter (fun r => String.eqb (EnvironmentRecord.school r) selected_school) env_df.

Definition filter_growth (selected_school : string) (growth_df : list GrowthRecord.t)
  : list GrowthRecord.t :=
  if String.eqb selected_school "전체" then growth_df
  else filter (fun r => String.eqb (GrowthRecord.school r) selected_school) growth_df.

Definition number_cell (v : option Qc) : cell :=
  match v with Some q => Number q | None => Blank end.

Definition stamp_cell (v : option Z) : cell :=
  match v with Some t => Stamp t | None => Blank end.

(** The unified tables as frames: the five renamed columns followed by
    the two columns the loader adds. *)
Definition env_columns : list string :=
  ["time"; "temperature"; "humidity"; "ph"; "ec"; "school"; "ec_goal"]%string.

Definition env_cells (r : EnvironmentRecord.t) : list cell :=
  [ stamp_cell (EnvironmentRecord.time r);
    number_cell (EnvironmentRecord.temperature r);
    number_cell (EnvironmentRecord.humidity r);
    number_cell (EnvironmentRecord.ph r);
    number_cell (EnvironmentRecord.ec r);
    Text (EnvironmentRecord.school r);
    Number (EnvironmentRecord.ec_goal r) ].

Definition env_frame (df : list EnvironmentRecord.t) : DataFrame :=
  {| columns := env_columns; rows := map env_cells df |}.

Definition growth_columns : list string :=
  ["individual_id"; "leaf_count"; "shoot_length"; "root_length"; "fresh_weight";
   "school"; "ec_goal"]%string.

Definition growth_cells (r : GrowthRecord.t) : list cell :=
  [ GrowthRecord.individual_id r;
    number_cell (GrowthRecord.leaf_count r);
    number_cell (GrowthRecord.shoot_length r);
    number_cell (GrowthRecord.root_length r);
    number_cell (GrowthRecord.fresh_weight r);
    Text (GrowthRecord.school r);
    Number (GrowthRecord.ec_goal r) ].

Definition growth_frame (df : list GrowthRecord.t) : DataFrame :=
  {| columns := growth_columns; rows := map growth_cells df |}.

(** The entries of [l] at the positions where [mask] holds. *)
Fixpoint select {A} (mask : list bool) (l : list A) : list A :=
  match mask, l with
  | b :: mask', x :: l' => if b then x :: select mask' l' else select mask' l'
  | _, _ => []
  end.

(** [df.drop(columns=labels, errors='ignore')]. *)
Definition drop (labels : list string) (df : DataFrame) : DataFrame :=
  let mask := map (fun c => negb (existsb (String.eqb c) labels)) (columns df) in
  {| columns := select mask (columns df); rows := map (select mask) (rows df) |}.

(** [df.to_csv(index=False, ...)] and [df.to_excel(buffer,
    index=False, ...)]: the header line, then one line per row. *)
Definition to_csv (df : DataFrame) : list (list cell) :=
  map Text (columns df) :: rows df.

Definition to_excel (df : DataFrame) : list (list cell) :=
  map Text (columns df) :: rows df.

Record download := {
  data : list (list cell);
  file_name : string;
  mime : string
}.

(** Line 350: the table shown in the expander of tab 2. *)
Definition env_raw_table (filtered_env_df : list EnvironmentRecord.t) : DataFrame :=
  drop ["ec_goal"%string] (env_frame filtered_env_df).

(** Lines 353-365: the CSV download of tab 2. *)
Definition env_raw_download (selected_school : string)
           (filtered_env_df : list EnvironmentRecord.t) : option download :=
  match filtered_env_df with
  | [] => None
  | _ :: _ =>
      Some {| data := to_csv (env_frame filtered_env_df);
              file_name := (selected_school ++ "_환경데이터_raw.csv")%string;
              mime := "text/csv" |}
  end.

(** Line 516: the table shown in the expander of tab 3. *)
Definition growth_raw_table (filtered_growth_df : list GrowthRecord.t) : DataFrame :=
  drop ["ec_goal"%string] (growth_frame filtered_growth_df).

(** Lines 519-530: the XLSX download of tab 3. *)
Definition growth_raw_download (selected_school : string)
           (filtered_growth_df : list GrowthRecord.t) : option download :=
  match filtered_growth_df with
  | [] => None
  | _ :: _ =>
      Some {| data := to_excel (growth_frame filtered_growth_df);
              file_name := (selected_school ++ "_생육결과데이터_raw.xlsx")%string;
              mime := "application/vnd.openxmlformats-officedocument.spreadsheetml.sheet" |}
  end.

(** The column labels a download carries: its header line. *)
Definition header (d : download) : list cell := hd [] (data d).

End Dashboard.

(* ================================================================== *)
(** ** The aggregation applied to a table of the program

    [groupby] and [agg] find the columns they read by label.  The
    tables the program holds are the two unified tables and the two
    summaries; each has the columns its construction gives it. *)








(** A summary row with its count replaced. *)
Definition env_with_count (n : nat) (s : EnvironmentSummary.t) : EnvironmentSummary.t :=
  {| EnvironmentSummary.school := EnvironmentSummary.school s;
     EnvironmentSummary.avg_temp := EnvironmentSummary.avg_temp s;
     EnvironmentSummary.avg_humidity := EnvironmentSummary.avg_humidity s;
     EnvironmentSummary.avg_ph := EnvironmentSummary.avg_ph s;
     EnvironmentSummary.avg_ec := EnvironmentSummary.avg_ec s;
     EnvironmentSummary.ec_goal := EnvironmentSummary.ec_goal s;
     EnvironmentSummary.count := n |}.

Definition bool_count (b : bool) : nat := if b then 1 else 0.

(* ================================================================== *)
(** ** Worked data *)

Module Sample.

(** A stand-in for the library on the cells used below: names are
    already composed; a time cell parses when it is a point in time, a
    number, or text made of digits only; a numeric cell parses when it
    is a number or plain decimal text. *)
Definition sample_to_datetime (col : list cell) (c : cell) : option Z :=
  match c with
  | Blank => None
  | Number q => Some (Qfloor q)
  | Text s => option_map (fun u => Z.of_N (N.of_uint u)) (NilZero.uint_of_string s)
  | Stamp t => Some t
  end.

Definition sample_to_numeric (c : cell) : option Qc :=
  match c with
  | Number q => Some q
  | Text s => Label.float_of_str s
  | _ => None
  end.

#[export] Instance library : Library := {
  normalize_NFC := fun s => s;
  to_datetime := sample_to_datetime;
  to_numeric := sample_to_numeric
}.

Definition n (z : Z) : option Qc := Some (Num.of_Z z).

Definition env_row (t : Z) (temp : option Qc) (school : string) (goal : Z)
  : EnvironmentRecord.t :=
  {| EnvironmentRecord.time := Some t;
     EnvironmentRecord.temperature := temp;
     EnvironmentRecord.humidity := n 50;
     EnvironmentRecord.ph := n 6;
     EnvironmentRecord.ec := n goal;
     EnvironmentRecord.school := school;
     EnvironmentRecord.ec_goal := Num.of_Z goal |}.

(** Three readings of one school, the second without a temperature. *)
Definition songdo_env : list EnvironmentRecord.t :=
  [ env_row 1 (n 10) "송도고" 1; env_row 2 None "송도고" 1; env_row 3 (n 20) "송도고" 1 ].

(** Readings of two schools, 하늘고 first. *)
Definition two_schools_env : list EnvironmentRecord.t :=
  [ env_row 1 (n 21) "하늘고" 2; env_row 2 (n 22) "송도고" 1 ].

Definition growth_row (id : cell) (weight : option Qc) (school : string) (goal : Z)
  : GrowthRecord.t :=
  {| GrowthRecord.individual_id := id;
     GrowthRecord.leaf_count := n 5;
     GrowthRecord.shoot_length := n 30;
     GrowthRecord.root_length := n 12;
     GrowthRecord.fresh_weight := weight;
     GrowthRecord.school := school;
     GrowthRecord.ec_goal := Num.of_Z goal |}.

(** Scenario 3 of the specification. *)
Definition scenario3_growth : list GrowthRecord.t :=
  [ growth_row (Text "A1") (n 2) "송도고" 1; growth_row (Text "A2") (n 3) "송도고" 1;
    growth_row (Text "B1") (n 5) "하늘고" 2 ].

(** Two measured plants of one school, the second without an id. *)
Definition unnamed_plant_growth : list GrowthRecord.t :=
  [ growth_row (Text "A1") (n 2) "송도고" 1; growth_row Blank (n 3) "송도고" 1 ].

Definition env_header : list string :=
  ["시간"; "온도"; "습도"; "pH"; "EC"]%string.

Definition csv (nm : string) (result : outcome DataFrame) : Path :=
  {| name := nm; is_file := true; read_csv := result; open_excel := Raises |}.

(** Scenario 1: three readings and one line with an empty time; the
    third line has an unreadable temperature. *)
Definition songdo_line3 : list cell :=
  [Text "20240502"; Text "n/a"; Number (Num.of_Z 50); Number (Num.of_Z 6);
   Number (Num.of_Z 1)].

Definition songdo_frame : DataFrame :=
  {| columns := env_header;
     rows := [ [Text "20240501"; Number (Num.of_Z 10); Number (Num.of_Z 50);
                Number (Num.of_Z 6); Number (Num.of_Z 1)];
               [Blank; Number (Num.of_Z 11); Number (Num.of_Z 50);
                Number (Num.of_Z 6); Number (Num.of_Z 1)];
               songdo_line3;
               [Text "20240503"; Number (Num.of_Z 20); Number (Num.of_Z 50);
                Number (Num.of_Z 6); Number (Num.of_Z 1)] ] |}.

Definition songdo_csv : Path := csv "송도고_환경데이터.csv" (Returns songdo_frame).

Definition songdo_cfg : SchoolConfig := {| EC_goal := Num.of_Z 1; color := "#1f77b4" |}.

(** A matched file none of whose lines carries a readable time. *)
Definition haneul_csv_no_times : Path :=
  csv "하늘고_환경데이터.csv"
      (Returns {| columns := env_header;
                  rows := [ [Text "n/a"; Number (Num.of_Z 20); Number (Num.of_Z 50);
                             Number (Num.of_Z 6); Number (Num.of_Z 2)];
                            [Blank; Number (Num.of_Z 21); Number (Num.of_Z 50);
                             Number (Num.of_Z 6); Number (Num.of_Z 2)] ] |}).

(** A matched file with four columns. *)
Definition ara_csv_four_columns : Path :=
  csv "아라고_환경데이터.csv"
      (Returns {| columns := ["시간"; "온도"; "습도"; "pH"]%string;
                  rows := [ [Text "20240501"; Number (Num.of_Z 10); Number (Num.of_Z 50);
                             Number (Num.of_Z 6)] ] |}).

(** A file of a school that is not in the registry. *)
Definition other_csv : Path :=
  csv "기타고_환경데이터.csv"
      (Returns {| columns := env_header;
                  rows := [ [Text "20240501"; Number (Num.of_Z 10); Number (Num.of_Z 50);
                             Number (Num.of_Z 6); Number (Num.of_Z 1)] ] |}).

Definition growth_header : list string :=
  ["개체번호"; "잎 수"; "지상부 길이"; "지하부 길이"; "생중량"]%string.

Definition plant (id : string) (w : Z) : list cell :=
  [Text id; Number (Num.of_Z 5); Number (Num.of_Z 30); Number (Num.of_Z 12);
   Number (Num.of_Z w)].

(** Scenario 2: sheets of two schools and one unmapped sheet. *)
Definition workbook : ExcelFile :=
  {| sheet_names := ["하늘고"; "기타시트"; "송도고"]%string;
     parse := fun sheet =>
       if String.eqb sheet "하늘고" then
         Returns {| columns := growth_header; rows := [plant "B1" 5] |}
       else if String.eqb sheet "송도고" then
         Returns {| columns := growth_header; rows := [plant "A1" 2; plant "A2" 3] |}
       else if String.eqb sheet "기타시트" then
         Returns {| columns := growth_header; rows := [plant "X1" 9] |}
       else Raises |}.

(** A workbook whose only sheet has a second plant without an id. *)
Definition unnamed_plant_xlsx : Path :=
  {| name := "생육결과데이터.xlsx"; is_file := true; read_csv := Raises;
     open_excel :=
       Returns {| sheet_names := ["송도고"%string];
                  parse := fun sheet =>
                    Returns {| columns := growth_header;
                               rows := [ plant "A1" 2;
                                         [Blank; Number (Num.of_Z 5); Number (Num.of_Z 30);
                                          Number (Num.of_Z 12); Number (Num.of_Z 3)] ] |} |} |}.

Definition growth_xlsx : Path :=
  {| name := "4개교_생육결과데이터.xlsx"; is_file := true;
     read_csv := Raises; open_excel := Returns workbook |}.

Definition data_dir : list Path :=
  [songdo_csv; ara_csv_four_columns; other_csv; growth_xlsx].

End Sample.

(* ================================================================== *)
(** ** What one file or sheet adds to a load *)

Section Contributions.
Context {lib : Library}.

(** The frames a file appends to [all_env_data] and the messages it
    causes: the loop body run on the empty state. *)
Definition env_file_frames (path : Path) : list (list EnvironmentRecord.t) :=
  fst (env_step ([], []) path).

Definition env_file_reports (path : Path) : list message :=
  snd (env_step ([], []) path).

Definition growth_sheet_frames (xls : ExcelFile) (sheet_name : string)
  : list (list GrowthRecord.t) :=
  fst (growth_step xls ([], []) sheet_name).

Definition growth_sheet_reports (xls : ExcelFile) (sheet_name : string) : list message :=
  snd (growth_step xls ([], []) sheet_name).

(** The unified tables and the reports of the two loaders. *)
Definition env_df (data_dir : list Path) : list EnvironmentRecord.t :=
  fst (snd (load_and_preprocess_env_data data_dir)).

Definition env_summary_df (data_dir : list Path) : list EnvironmentSummary.t :=
  snd (snd (load_and_preprocess_env_data data_dir)).

Definition env_reported (data_dir : list Path) : list message :=
  fst (load_and_preprocess_env_data data_dir).

Definition growth_df (data_dir : list Path) : list GrowthRecord.t :=
  fst (snd (load_and_preprocess_growth_data data_dir)).

Definition growth_summary_df (data_dir : list Path) : list (GrowthSummary.t string) :=
  snd (snd (load_and_preprocess_growth_data data_dir)).

(** A record carries a registered school and that school's EC target. *)
Definition registered (school : string) (ec_goal : Qc) : Prop :=
  exists cfg, lookup school EC_MAPPING = Some cfg /\ ec_goal = EC_goal cfg.

End Contributions.

(* ================================================================== *)
(** ** The script around the loaders: selection, overview and cards *)

Module Script.

(** What a loader hands back: [pd.DataFrame()], a frame without
    columns, after its missing-data report, and the unified table
    otherwise. *)
Inductive frame (R : Type) :=
| NoColumns
| Table (records : list R).
Arguments NoColumns {R}.
Arguments Table {R} records.

(** [df.empty]. *)
Definition empty {R} (f : frame R) : bool :=
  match f with
  | NoColumns => true
  | Table [] => true
  | Table (_ :: _) => false
  end.

(** [df.shape[0]]. *)
Definition shape0 {R} (f : frame R) : nat :=
  match f with
  | NoColumns => O
  | Table records => List.length records
  end.

(** [df[df['school'] == selected_school].copy()]: looking up the
    school column of a frame without columns raises [KeyError]. *)
Definition rows_of_school {R} (school : R -> string) (selected_school : string)
           (f : frame R) : outcome (frame R) :=
  match f with
  | NoColumns => Raises
  | Table records =>
      Returns (Table (filter (fun r => String.eqb (school r) selected_school) records))
  end.

(** How a run of the script gets past line 196. *)
Inductive selection :=
| Stopped                       (* st.stop() at line 179 *)
| KeyError                      (* raised at line 192 or 193 *)
| Filtered (filtered_env_df : frame EnvironmentRecord.t)
           (filtered_growth_df : frame GrowthRecord.t).

(** Lines 177-196. *)
Definition select (selected_school : string)
           (env_df : frame EnvironmentRecord.t) (growth_df : frame GrowthRecord.t)
  : selection :=
  if empty env_df && empty growth_df then Stopped
  else if negb (String.eqb selected_school "전체") then
    match rows_of_school EnvironmentRecord.school selected_school env_df with
    | Raises => KeyError
    | Returns filtered_env_df =>
        match rows_of_school GrowthRecord.school selected_school growth_df with
        | Raises => KeyError
        | Returns filtered_growth_df => Filtered filtered_env_df filtered_growth_df
        end
    end
  else Filtered env_df growth_df.

(** Line 183. *)
Definition school_options : list string := "전체"%string :: map fst EC_MAPPING.

(** The records of a frame. *)
Definition records {R} (f : frame R) : list R :=
  match f with
  | NoColumns => []
  | Table rs => rs
  end.

(** Line 220: the plants of one school, [0] when the table is empty;
    the school column is read only from a table that is not empty. *)
Definition growth_count (growth_df : frame GrowthRecord.t) (school : string) : nat :=
  if empty growth_df then O
  else List.length (filter (fun r => String.eqb (GrowthRecord.school r) school)
                           (records growth_df)).

(** Lines 218-226: one line of the overview table per registry entry:
    school, EC target, colour, number of plants. *)
Definition ec_table (growth_df : frame GrowthRecord.t)
  : list (string * Qc * string * nat) :=
  map (fun e => (fst e, EC_goal (snd e), color (snd e), growth_count growth_df (fst e)))
      EC_MAPPING.

(** Line 236. *)
Definition total_individuals (growth_df : frame GrowthRecord.t) : nat :=
  if empty growth_df then O else shape0 growth_df.

(** [Series.max()]: the largest entry that is not missing; NaN when
    there is none. *)
Definition max_step (m v : option Qc) : option Qc :=
  match v, m with
  | None, _ => m
  | Some x, None => Some x
  | Some x, Some y => if Num.leb y x then Some x else Some y
  end.

Definition series_max (vs : list (option Qc)) : option Qc :=
  fold_left max_step vs None.

(** [series == value], entry by entry; NaN equals nothing. *)
Definition eq_value (v best : option Qc) : bool :=
  match v, best with
  | Some x, Some y => Num.eqb x y
  | _, _ => false
  end.

(** Lines 381-382: the label of the first summary row whose mean fresh
    weight is the largest; [.iloc[0]] raises [IndexError] when no row
    is selected. *)
Definition best_ec_label (growth_summary_df : list (GrowthSummary.t string))
  : outcome string :=
  let best_ec_val := series_max (map GrowthSummary.avg_fresh_weight growth_summary_df) in
  match filter (fun s => eq_value (GrowthSummary.avg_fresh_weight s) best_ec_val)
               growth_summary_df with
  | [] => Raises
  | s :: _ => Returns (GrowthSummary.ec_goal s)
  end.

(** Lines 386-387 and 419: the colour of the school a label belongs to;
    a label that matches no school raises. *)
Definition color_of_label (label : string) : outcome string :=
  match Label.school_of_label EC_MAPPING label with
  | None => Raises
  | Some school_name =>
      match lookup school_name EC_MAPPING with
      | None => Raises
      | Some cfg => Returns (color cfg)
      end
  end.

(** A list comprehension over calls that may raise. *)
Fixpoint collect {A B} (f : A -> outcome B) (l : list A) : outcome (list B) :=
  match l with
  | [] => Returns []
  | a :: l' =>
      match f a with
      | Raises => Raises
      | Returns b =>
          match collect f l' with
          | Raises => Raises
          | Returns bs => Returns (b :: bs)
          end
      end
  end.

(** Lines 419-420: the bar colours of a growth chart. *)
Definition bar_colors (df : list (GrowthSummary.t string)) : outcome (list string) :=
  collect (fun s => color_of_label (GrowthSummary.ec_goal s)) df.

(** Lines 281, 285, 289, 295: the bar colours of an environment chart,
    [[EC_MAPPING[s]['color'] for s in env_summary_df['school']]]. *)
Definition marker_colors (env_summary_df : list EnvironmentSummary.t)
  : outcome (list string) :=
  collect (fun s => match lookup (EnvironmentSummary.school s) EC_MAPPING with
                    | Some cfg => Returns (color cfg)
                    | None => Raises
                    end) env_summary_df.

End Script.

Section ScriptLoad.
Context {lib : Library}.

(** The frames lines 174-175 bind: a loader that collected nothing
    returns [pd.DataFrame()] (lines 83, 119, 127, 150). *)
Definition env_result (data_dir : list Path) : Script.frame EnvironmentRecord.t :=
  match fst (env_loop data_dir) with
  | [] => Script.NoColumns
  | all_env_data => Script.Table (concat all_env_data)
  end.

Definition growth_result (data_dir : list Path) : Script.frame GrowthRecord.t :=
  match xlsx_path data_dir with
  | None => Script.NoColumns
  | Some path =>
      match open_excel path with
      | Raises => Script.NoColumns
      | Returns xls =>
          match fst (growth_loop xls) with
          | [] => Script.NoColumns
          | all_growth_data => Script.Table (concat all_growth_data)
          end
      end
  end.

(** Number of rows of the parsed frames of the environment CSVs that
    load. *)
Definition rows_read (path : Path) : nat :=
  if is_env_csv path then
    match lookup (school_of_file path) EC_MAPPING, read_csv path with
    | Some _, Returns df =>
        if (List.length (columns df) =? 5)%nat then List.length (rows df) else O
    | _, _ => O
    end
  else O.

(** Number of rows of the parsed frame of a sheet that loads. *)
Definition sheet_rows (xls : ExcelFile) (sheet_name : string) : nat :=
  match lookup sheet_name EC_MAPPING, parse xls sheet_name with
  | Some _, Returns df =>
      if (List.length (columns df) =? 5)%nat then List.length (rows df) else O
  | _, _ => O
  end.

End ScriptLoad.

(** The sum of a list of numbers. *)
Definition sum_nat (l : list nat) : nat := fold_right Nat.add O l.

(** A whole number that a float64 holds exactly and that Python prints
    in positional form: magnitude at most [2^53]. *)
Definition whole_float (x : Qc) : Prop :=
  exists z : Z, (Z.abs z <= 2 ^ 53)%Z /\ x = Num.of_Z z.

(** A text without the character [c]. *)
Fixpoint lacks (c : ascii) (s : string) : bool :=
  match s with
  | EmptyString => true
  | String a s' => negb (Ascii.eqb a c) && lacks c s'
  end.

(* ================================================================== *)
(** * Properties *)

(** ** Key types *)

Lemma Num_eqb_eq (x y : Qc) : Num.eqb x y = true <-> x = y.
Proof.
  unfold Num.eqb. split; intros E.
  - apply Qc_is_canon. now apply Qeq_bool_iff.
  - subst. apply Qeq_bool_iff. reflexivity.
Qed.

Lemma Num_leb_total (x y : Qc) : Num.leb x y = true \/ Num.leb y x = true.
Proof.
  unfold Num.leb. rewrite !Qle_bool_iff.
  destruct (Qlt_le_dec x y) as [L | L]; [left; now apply Qlt_le_weak | now right].
Qed.

Lemma Num_leb_antisym (x y : Qc) : Num.leb x y = true -> Num.leb y x = true -> x = y.
Proof.
  unfold Num.leb. rewrite !Qle_bool_iff. intros L1 L2.
  apply Qc_is_canon. now apply Qle_antisym.
Qed.

Lemma Num_leb_trans (x y z : Qc) :
  Num.leb x y = true -> Num.leb y z = true -> Num.leb x z = true.
Proof. unfold Num.leb. rewrite !Qle_bool_iff. apply Qle_trans. Qed.

#[export] Instance number_KeyLaws : KeyLaws Qc := {
  key_eqb_eq := Num_eqb_eq;
  key_leb_total := Num_leb_total;
  key_leb_antisym := Num_leb_antisym;
  key_leb_trans := Num_leb_trans
}.

Lemma string_leb_cases (x y : string) :
  String.leb x y = true <-> String_as_OT.lt x y \/ x = y.
Proof.
  unfold String.leb. rewrite <- String_as_OT.cmp_lt, <- String_as_OT.cmp_eq.
  change String_as_OT.cmp with String.compare.
  destruct (String.compare x y); split; intros E;
    try reflexivity; try discriminate; auto;
    destruct E; discriminate.
Qed.

Lemma string_leb_trans (x y z : string) :
  String.leb x y = true -> String.leb y z = true -> String.leb x z = true.
Proof.
  rewrite !string_leb_cases. intros [L1 | ->] [L2 | ->]; auto.
  left. eapply String_as_OT.lt_trans; eassumption.
Qed.

#[export] Instance string_KeyLaws : KeyLaws string := {
  key_eqb_eq := String.eqb_eq;
  key_leb_total := String.leb_total;
  key_leb_antisym := String.leb_antisym;
  key_leb_trans := string_leb_trans
}.

Section KeyFacts.
Context {K : Type} `{KeyLaws K}.

Lemma key_eqb_refl (x : K) : key_eqb x x = true.
Proof. now apply key_eqb_eq. Qed.

Lemma key_eqb_neq (x y : K) : key_eqb x y = false <-> x <> y.
Proof.
  destruct (key_eqb x y) eqn:E.
  - apply key_eqb_eq in E. split; [discriminate | contradiction].
  - split; [intros _ Exy | reflexivity].
    apply key_eqb_eq in Exy. congruence.
Qed.

Lemma key_leb_refl (x : K) : key_leb x x = true.
Proof. destruct (key_leb_total x x); assumption. Qed.

Lemma existsb_key_eqb (k : K) (l : list K) :
  existsb (key_eqb k) l = true <-> In k l.
Proof.
  rewrite existsb_exists. split.
  - intros (x & Hin & E). apply key_eqb_eq in E. now subst.
  - intros Hin. exists k. split; [assumption | apply key_eqb_refl].
Qed.

End KeyFacts.

(** ** groupby: the keys *)

Section GroupByFacts.
Context {K R : Type} `{KeyLaws K}.
Variable key : R -> K.

Lemma uniques_In (ks seen : list K) (k : K) :
  In k (uniques seen ks) <-> In k ks /\ ~ In k seen.
Proof.
  revert seen. induction ks as [| a ks IH]; intros seen; simpl.
  - tauto.
  - destruct (existsb (key_eqb a) seen) eqn:E.
    + apply existsb_key_eqb in E. rewrite IH.
      split; [tauto |]. intros [[-> | Hin] Hn]; tauto.
    + assert (Hna : ~ In a seen).
      { intros Hin. apply existsb_key_eqb in Hin. congruence. }
      simpl. rewrite IH. simpl. split.
      * intros [-> | [Hin Hn]]; [tauto |]. split; [tauto |]. tauto.
      * intros [[-> | Hin] Hn]; [tauto |].
        destruct (key_eqb a k) eqn:Eak.
        -- apply key_eqb_eq in Eak. tauto.
        -- apply key_eqb_neq in Eak. right. split; [assumption |].
           intros [E' | Hs]; tauto.
Qed.

Lemma uniques_NoDup (ks seen : list K) : NoDup (uniques seen ks).
Proof.
  revert seen. induction ks as [| a ks IH]; intros seen; simpl.
  - constructor.
  - destruct (existsb (key_eqb a) seen); [apply IH |].
    constructor; [| apply IH].
    rewrite uniques_In. simpl. tauto.
Qed.

(** On keys that are already distinct, factorization changes nothing. *)
Lemma uniques_of_NoDup (ks seen : list K) :
  NoDup ks -> (forall k, In k ks -> ~ In k seen) -> uniques seen ks = ks.
Proof.
  revert seen. induction ks as [| a ks IH]; intros seen Hnd Hdis; simpl.
  - reflexivity.
  - inversion Hnd as [| ? ? Hna Hnd']; subst.
    destruct (existsb (key_eqb a) seen) eqn:E.
    + apply existsb_key_eqb in E. exfalso. apply (Hdis a); simpl; auto.
    + f_equal. apply IH; [assumption |].
      intros k Hin [-> | Hs]; [contradiction |].
      apply (Hdis k); simpl; auto.
Qed.

Lemma insert_key_In (k x : K) (l : list K) :
  In x (insert_key k l) <-> x = k \/ In x l.
Proof.
  induction l as [| h t IH]; simpl.
  - intuition.
  - destruct (key_leb k h); simpl; [intuition |].
    rewrite IH. intuition.
Qed.

Lemma insert_key_NoDup (k : K) (l : list K) :
  NoDup l -> ~ In k l -> NoDup (insert_key k l).
Proof.
  induction l as [| h t IH]; simpl; intros Hnd Hn.
  - constructor; [tauto | constructor].
  - destruct (key_leb k h).
    + constructor; assumption.
    + inversion Hnd; subst. constructor.
      * rewrite insert_key_In. intros [-> | Hin]; tauto.
      * apply IH; tauto.
Qed.

Lemma insert_key_sorted (k : K) (l : list K) :
  StronglySorted key_le l -> StronglySorted key_le (insert_key k l).
Proof.
  induction l as [| h t IH]; simpl; intros Hs.
  - constructor; constructor.
  - destruct (key_leb k h) eqn:E.
    + constructor; [assumption |].
      inversion Hs; subst. constructor; [exact E |].
      eapply Forall_impl; [| eassumption].
      intros a Ha. unfold key_le in *. eapply key_leb_trans; eassumption.
    + inversion Hs; subst. constructor; [now apply IH |].
      apply Forall_forall. intros x Hx. apply insert_key_In in Hx.
      destruct Hx as [-> | Hx].
      * destruct (key_leb_total h k) as [L | L]; [exact L | congruence].
      * eapply Forall_forall; eassumption.
Qed.

Lemma sort_keys_In (l : list K) (x : K) : In x (sort_keys l) <-> In x l.
Proof.
  induction l as [| a l IH]; simpl; [tauto |].
  rewrite insert_key_In, IH. intuition.
Qed.

Lemma sort_keys_NoDup (l : list K) : NoDup l -> NoDup (sort_keys l).
Proof.
  induction l as [| a l IH]; simpl; intros Hnd; [constructor |].
  inversion Hnd; subst. apply insert_key_NoDup; [now apply IH |].
  now rewrite sort_keys_In.
Qed.

Lemma sort_keys_sorted (l : list K) : StronglySorted key_le (sort_keys l).
Proof.
  induction l as [| a l IH]; simpl; [constructor |].
  now apply insert_key_sorted.
Qed.

(** Sorting keys that are already in ascending order changes nothing. *)
Lemma sort_keys_of_sorted (l : list K) :
  StronglySorted key_le l -> sort_keys l = l.
Proof.
  induction l as [| a l IH]; simpl; intros Hs; [reflexivity |].
  inversion Hs as [| ? ? Hs' Hall]; subst. rewrite (IH Hs').
  destruct l as [| h t]; simpl; [reflexivity |].
  inversion Hall as [| ? ? Hah _]; subst.
  unfold key_le in Hah. now rewrite Hah.
Qed.

Lemma group_keys_In (rows : list R) (k : K) :
  In k (group_keys key rows) <-> In k (map key rows).
Proof.
  unfold group_keys. rewrite sort_keys_In, uniques_In. simpl. tauto.
Qed.

Lemma group_keys_NoDup (rows : list R) : NoDup (group_keys key rows).
Proof. apply sort_keys_NoDup, uniques_NoDup. Qed.

Lemma group_keys_sorted (rows : list R) : StronglySorted key_le (group_keys key rows).
Proof. apply sort_keys_sorted. Qed.

(** Distinct keys in ascending order are in strictly ascending order. *)
Lemma sorted_NoDup_strict (l : list K) :
  StronglySorted key_le l -> NoDup l -> StronglySorted key_lt l.
Proof.
  induction l as [| a l IH]; intros Hs Hnd; [constructor |].
  inversion Hs; subst. inversion Hnd; subst.
  constructor; [now apply IH |].
  apply Forall_forall. intros x Hx. split.
  - eapply Forall_forall in Hx; [exact Hx | eassumption].
  - intros ->. contradiction.
Qed.

Lemma group_keys_strict (rows : list R) : StronglySorted key_lt (group_keys key rows).
Proof.
  apply sorted_NoDup_strict; [apply group_keys_sorted | apply group_keys_NoDup].
Qed.

Lemma groupby_keys (rows : list R) : map fst (groupby key rows) = group_keys key rows.
Proof. unfold groupby. rewrite map_map. simpl. apply map_id. Qed.

Lemma groupby_In (rows : list R) (k : K) (grp : list R) :
  In (k, grp) (groupby key rows) ->
  In k (map key rows) /\ grp = group_rows key k rows.
Proof.
  unfold groupby. rewrite in_map_iff. intros (k' & E & Hin).
  inversion E; subst. split; [| reflexivity].
  now apply group_keys_In.
Qed.

Lemma group_rows_In (rows : list R) (k : K) (r : R) :
  In r (group_rows key k rows) <-> In r rows /\ key r = k.
Proof. unfold group_rows. rewrite filter_In, key_eqb_eq. tauto. Qed.

(** A group that [groupby] yields has at least one row. *)
Lemma group_rows_nonempty (rows : list R) (k : K) :
  In k (map key rows) -> group_rows key k rows <> [].
Proof.
  rewrite in_map_iff. intros (r & E & Hin) Hnil.
  assert (Hr : In r (group_rows key k rows)) by (apply group_rows_In; auto).
  rewrite Hnil in Hr. contradiction.
Qed.

(** A table whose keys are distinct and ascending is its own list of
    groups: one group per row, in table order. *)
Lemma group_rows_single (rows : list R) (r : R) :
  NoDup (map key rows) -> In r rows -> group_rows key (key r) rows = [r].
Proof.
  induction rows as [| a rows IH]; simpl; intros Hnd Hin; [contradiction |].
  inversion Hnd as [| ? ? Hna Hnd']; subst.
  destruct Hin as [-> | Hin].
  - rewrite key_eqb_refl. f_equal.
    unfold group_rows in *.
    clear IH Hnd Hnd'.
    induction rows as [| b rows IHr]; simpl; [reflexivity |].
    simpl in Hna.
    destruct (key_eqb (key b) (key r)) eqn:E.
    + apply key_eqb_eq in E. exfalso. apply Hna. left. assumption.
    + apply IHr. intros Hin. apply Hna. right. assumption.
  - destruct (key_eqb (key a) (key r)) eqn:E.
    + apply key_eqb_eq in E. exfalso. apply Hna. rewrite E. now apply in_map.
    + now apply IH.
Qed.

Lemma groupby_of_summary (rows : list R) :
  NoDup (map key rows) -> StronglySorted key_le (map key rows) ->
  groupby key rows = map (fun r => (key r, [r])) rows.
Proof.
  intros Hnd Hs. unfold groupby, group_keys.
  rewrite uniques_of_NoDup by (auto; intros k _ []).
  rewrite sort_keys_of_sorted by assumption.
  rewrite map_map. apply map_ext_in. intros r Hin.
  f_equal. now apply group_rows_single.
Qed.

End GroupByFacts.

(** ** The aggregation functions *)

Lemma present_cons_some {A} (x : A) (vs : list (option A)) :
  present (Some x :: vs) = x :: present vs.
Proof. reflexivity. Qed.

Lemma present_cons_none {A} (vs : list (option A)) :
  present (None :: vs) = present vs.
Proof. reflexivity. Qed.

(** The accumulator of the grouped mean holds the number and the sum of
    the values met so far that are not missing. *)
Lemma mean_fold (vs : list (option Qc)) (nobs : nat) (sumx : Qc) :
  fold_left Agg.mean_step vs (nobs, sumx)
  = ((nobs + List.length (present vs))%nat, (sumx + total (present vs))%Qc).
Proof.
  revert nobs sumx. induction vs as [| [x |] vs IH]; intros nobs sumx; simpl fold_left.
  - simpl. f_equal; [lia | ring].
  - rewrite IH. rewrite present_cons_some. simpl. f_equal; [lia | ring].
  - rewrite IH. rewrite present_cons_none. reflexivity.
Qed.

Lemma mean_acc_present (vs : list (option Qc)) :
  Agg.mean_acc vs = (List.length (present vs), total (present vs)).
Proof.
  unfold Agg.mean_acc. rewrite mean_fold. simpl. f_equal. ring.
Qed.

(** ['mean'] is the arithmetic mean of the values that are not missing. *)
Lemma mean_is_arithmetic_mean (vs : list (option Qc)) :
  Agg.mean vs = arithmetic_mean (present vs).
Proof.
  unfold Agg.mean. rewrite mean_acc_present.
  destruct (present vs) as [| x xs]; reflexivity.
Qed.

Lemma of_Z_1 : Num.of_Z 1 = Q2Qc 1.
Proof. reflexivity. Qed.

Lemma mean_single (v : option Qc) : Agg.mean [v] = v.
Proof.
  rewrite mean_is_arithmetic_mean. destruct v as [x |]; [| reflexivity].
  unfold present, arithmetic_mean, total; cbn [flat_map app fold_right List.length].
  f_equal. change (Num.of_Z (Z.of_nat 1)) with (Q2Qc 1).
  field. discriminate.
Qed.

Lemma first_single {A} (v : option A) : Agg.first [v] = v.
Proof. destruct v; reflexivity. Qed.

Lemma count_single {A} (f : A -> bool) (x : A) : Agg.count f [x] = bool_count (f x).
Proof. unfold Agg.count. simpl. destruct (f x); reflexivity. Qed.

Lemma count_le_length {A} (f : A -> bool) (l : list A) :
  (Agg.count f l <= List.length l)%nat.
Proof. unfold Agg.count. apply filter_length_le. Qed.

Lemma filter_all {A} (f : A -> bool) (l : list A) :
  Forall (fun x => f x = true) l -> filter f l = l.
Proof.
  intros Hall. induction Hall as [| x l Hx _ IH]; simpl; [reflexivity |].
  now rewrite Hx, IH.
Qed.

Lemma count_all {A} (f : A -> bool) (l : list A) :
  Forall (fun x => f x = true) l -> Agg.count f l = List.length l.
Proof. unfold Agg.count. intros Hall. now rewrite filter_all. Qed.

Lemma count_map {A B} (g : A -> B) (f : B -> bool) (l : list A) :
  Agg.count f (map g l) = List.length (filter (fun x => f (g x)) l).
Proof.
  unfold Agg.count. induction l as [| a l IH]; simpl; [reflexivity |].
  destruct (f (g a)); simpl; now rewrite IH.
Qed.

(** ** The loops of the loaders *)

Section LoaderFacts.
Context {lib : Library}.

Lemma env_step_app (st : list (list EnvironmentRecord.t) * list message) (path : Path) :
  env_step st path = (fst st ++ env_file_frames path, snd st ++ env_file_reports path).
Proof.
  unfold env_file_frames, env_file_reports, env_step.
  destruct st as [frames reported]; simpl.
  destruct (is_env_csv path); simpl; [| now rewrite !app_nil_r].
  destruct (lookup (school_of_file path) EC_MAPPING) as [cfg |]; simpl;
    [| now rewrite !app_nil_r].
  destruct (read_env_csv (school_of_file path) cfg path); simpl;
    now rewrite !app_nil_r.
Qed.

Lemma env_fold (data_dir : list Path) (st : list (list EnvironmentRecord.t) * list message) :
  fold_left env_step data_dir st
  = (fst st ++ flat_map env_file_frames data_dir,
     snd st ++ flat_map env_file_reports data_dir).
Proof.
  revert st. induction data_dir as [| path rest IH]; intros st; simpl.
  - rewrite !app_nil_r. now destruct st.
  - rewrite IH, env_step_app. simpl. now rewrite !app_assoc.
Qed.

Lemma env_loop_eq (data_dir : list Path) :
  env_loop data_dir
  = (flat_map env_file_frames data_dir, flat_map env_file_reports data_dir).
Proof. unfold env_loop. now rewrite env_fold. Qed.

(** What a file adds, case by case. *)
Lemma env_file_cases (path : Path) :
  (env_file_frames path = [] /\ env_file_reports path = [])
  \/ (env_file_frames path = []
      /\ env_file_reports path = [EnvFileLoadError (normalize_NFC (name path))])
  \/ (exists cfg df,
        is_env_csv path = true
        /\ lookup (school_of_file path) EC_MAPPING = Some cfg
        /\ read_csv path = Returns df
        /\ List.length (columns df) = 5%nat
        /\ env_file_frames path
           = [map (env_record df (school_of_file path) cfg) (dropna_time df)]
        /\ env_file_reports path = []).
Proof.
  unfold env_file_frames, env_file_reports, env_step.
  destruct (is_env_csv path) eqn:Hm; simpl; [| auto].
  destruct (lookup (school_of_file path) EC_MAPPING) as [cfg |] eqn:Hl; simpl; [| auto].
  unfold read_env_csv.
  destruct (read_csv path) as [| df] eqn:Hr; simpl; [auto |].
  destruct (List.length (columns df) =? 5)%nat eqn:Hc; simpl; [| auto].
  right. right. exists cfg, df. apply Nat.eqb_eq in Hc. auto 10.
Qed.

Lemma env_reports_kind (data_dir : list Path) (m : message) :
  In m (snd (env_loop data_dir)) -> exists f, m = EnvFileLoadError f.
Proof.
  rewrite env_loop_eq. simpl. rewrite in_flat_map. intros (path & _ & Hin).
  destruct (env_file_cases path) as [[_ E] | [[_ E] | (cfg & df & _ & _ & _ & _ & _ & E)]];
    rewrite E in Hin; simpl in Hin; try contradiction.
  destruct Hin as [<- | []]. eauto.
Qed.

(** The unified environment table is the concatenation of what the
    files add, in directory order. *)
Lemma env_df_eq (data_dir : list Path) :
  env_df data_dir = concat (flat_map env_file_frames data_dir).
Proof.
  unfold env_df, load_and_preprocess_env_data. rewrite env_loop_eq.
  destruct (flat_map env_file_frames data_dir); reflexivity.
Qed.

Lemma env_summary_df_eq (data_dir : list Path) :
  env_summary_df data_dir = env_summary (env_df data_dir).
Proof.
  unfold env_summary_df, env_df, load_and_preprocess_env_data. rewrite env_loop_eq.
  destruct (flat_map env_file_frames data_dir); reflexivity.
Qed.

Lemma env_df_In (data_dir : list Path) (r : EnvironmentRecord.t) :
  In r (env_df data_dir) ->
  exists path cfg df row,
    In path data_dir
    /\ is_env_csv path = true
    /\ lookup (school_of_file path) EC_MAPPING = Some cfg
    /\ read_csv path = Returns df
    /\ List.length (columns df) = 5%nat
    /\ In row (rows df)
    /\ time_of df row <> None
    /\ r = env_record df (school_of_file path) cfg row.
Proof.
  rewrite env_df_eq, in_concat. intros (frame & Hf & Hr).
  apply in_flat_map in Hf. destruct Hf as (path & Hp & Hf).
  destruct (env_file_cases path)
    as [[E _] | [[E _] | (cfg & df & Hm & Hl & Hread & Hc & E & _)]];
    rewrite E in Hf; simpl in Hf; try contradiction.
  destruct Hf as [<- | []].
  apply in_map_iff in Hr. destruct Hr as (row & <- & Hrow).
  unfold dropna_time in Hrow. apply filter_In in Hrow. destruct Hrow as [Hrow Ht].
  exists path, cfg, df, row. repeat split; auto.
  intros E0. rewrite E0 in Ht. discriminate.
Qed.

Lemma growth_step_app (xls : ExcelFile)
      (st : list (list GrowthRecord.t) * list message) (sheet_name : string) :
  growth_step xls st sheet_name
  = (fst st ++ growth_sheet_frames xls sheet_name,
     snd st ++ growth_sheet_reports xls sheet_name).
Proof.
  unfold growth_sheet_frames, growth_sheet_reports, growth_step.
  destruct st as [frames reported]; simpl.
  destruct (lookup sheet_name EC_MAPPING) as [cfg |]; simpl; [| now rewrite !app_nil_r].
  destruct (read_growth_sheet xls sheet_name cfg); simpl; now rewrite !app_nil_r.
Qed.

Lemma growth_fold (xls : ExcelFile) (names : list string)
      (st : list (list GrowthRecord.t) * list message) :
  fold_left (growth_step xls) names st
  = (fst st ++ flat_map (growth_sheet_frames xls) names,
     snd st ++ flat_map (growth_sheet_reports xls) names).
Proof.
  revert st. induction names as [| nm rest IH]; intros st; simpl.
  - rewrite !app_nil_r. now destruct st.
  - rewrite IH, growth_step_app. simpl. now rewrite !app_assoc.
Qed.

Lemma growth_sheet_frames_In (xls : ExcelFile) (sheet_name : string)
      (frame : list GrowthRecord.t) :
  In frame (growth_sheet_frames xls sheet_name) ->
  exists cfg df,
    lookup sheet_name EC_MAPPING = Some cfg
    /\ parse xls sheet_name = Returns df
    /\ List.length (columns df) = 5%nat
    /\ frame = map (growth_record sheet_name cfg) (rows df).
Proof.
  unfold growth_sheet_frames, growth_step, read_growth_sheet.
  destruct (lookup sheet_name EC_MAPPING) as [cfg |] eqn:Hl; simpl; [| contradiction].
  destruct (parse xls sheet_name) as [| df] eqn:Hp; simpl; [contradiction |].
  destruct (List.length (columns df) =? 5)%nat eqn:Hc; simpl; [| contradiction].
  intros [<- | []]. apply Nat.eqb_eq in Hc. exists cfg, df. auto.
Qed.

Lemma growth_df_In (data_dir : list Path) (r : GrowthRecord.t) :
  In r (growth_df data_dir) ->
  exists path xls sheet_name cfg df row,
    xlsx_path data_dir = Some path
    /\ open_excel path = Returns xls
    /\ In sheet_name (map normalize_NFC (sheet_names xls))
    /\ lookup sheet_name EC_MAPPING = Some cfg
    /\ parse xls sheet_name = Returns df
    /\ In row (rows df)
    /\ r = growth_record sheet_name cfg row.
Proof.
  unfold growth_df, load_and_preprocess_growth_data.
  destruct (xlsx_path data_dir) as [path |]; simpl; [| contradiction].
  destruct (open_excel path) as [| xls] eqn:Ho; simpl; [contradiction |].
  unfold growth_loop. rewrite growth_fold. cbn [fst snd app].
  destruct (flat_map (growth_sheet_frames xls) (map normalize_NFC (sheet_names xls)))
    as [| f fs] eqn:Ef; cbn [fst snd]; [contradiction |].
  rewrite <- Ef. clear Ef. intros Hin.
  apply in_concat in Hin. destruct Hin as (frame & Hf & Hr).
  apply in_flat_map in Hf. destruct Hf as (sheet_name & Hs & Hf).
  apply growth_sheet_frames_In in Hf. destruct Hf as (cfg & df & Hl & Hp & _ & ->).
  apply in_map_iff in Hr. destruct Hr as (row & <- & Hrow).
  exists path, xls, sheet_name, cfg, df, row. auto 10.
Qed.

End LoaderFacts.

(** ** The summaries *)

Lemma env_summary_In (env_df : list EnvironmentRecord.t) (s : EnvironmentSummary.t) :
  In s (env_summary env_df) ->
  In (EnvironmentSummary.school s) (map EnvironmentRecord.school env_df)
  /\ s = env_summary_row
           (EnvironmentSummary.school s,
            group_rows EnvironmentRecord.school (EnvironmentSummary.school s) env_df).
Proof.
  unfold env_summary. rewrite in_map_iff. intros ([k grp] & <- & Hin).
  apply groupby_In in Hin. destruct Hin as [Hk ->]. simpl. auto.
Qed.

Lemma env_summary_keys (env_df : list EnvironmentRecord.t) :
  map EnvironmentSummary.school (env_summary env_df)
  = group_keys EnvironmentRecord.school env_df.
Proof.
  unfold env_summary. rewrite map_map, <- groupby_keys.
  apply map_ext. now intros [k grp].
Qed.

Lemma growth_agg_In (growth_df : list GrowthRecord.t) (s : GrowthSummary.t Qc) :
  In s (growth_agg growth_df) ->
  In (GrowthSummary.ec_goal s) (map GrowthRecord.ec_goal growth_df)
  /\ s = growth_agg_row
           (GrowthSummary.ec_goal s,
            group_rows GrowthRecord.ec_goal (GrowthSummary.ec_goal s) growth_df).
Proof.
  unfold growth_agg. rewrite in_map_iff. intros ([k grp] & <- & Hin).
  apply groupby_In in Hin. destruct Hin as [Hk ->]. simpl. auto.
Qed.

Lemma growth_agg_keys (growth_df : list GrowthRecord.t) :
  map GrowthSummary.ec_goal (growth_agg growth_df)
  = group_keys GrowthRecord.ec_goal growth_df.
Proof.
  unfold growth_agg. rewrite map_map, <- groupby_keys.
  apply map_ext. now intros [k grp].
Qed.

Lemma growth_summary_labels (growth_df : list GrowthRecord.t) :
  map GrowthSummary.ec_goal (growth_summary growth_df)
  = map Label.ec_label (group_keys GrowthRecord.ec_goal growth_df).
Proof.
  unfold growth_summary. rewrite map_map, <- growth_agg_keys, map_map. reflexivity.
Qed.

(** C1. Every mean statistic of a summary row is the arithmetic mean of
    the values of its column that are not missing within the row's
    group: the sum of those values over their number, so that missing
    values enter neither the sum nor the divisor.  This holds for
    avg_temp, avg_humidity, avg_ph and avg_ec of the environment summary
    and for avg_fresh_weight, avg_leaf_count and avg_shoot_length of the
    growth summary; a group with the values 10, missing, 20 has mean
    15. *)
Theorem mean_statistics_skip_missing :
  (forall (env_df : list EnvironmentRecord.t) (s : EnvironmentSummary.t),
      In s (env_summary env_df) ->
      let grp := group_rows EnvironmentRecord.school (EnvironmentSummary.school s) env_df in
      grp <> []
      /\ EnvironmentSummary.avg_temp s
         = arithmetic_mean (observed EnvironmentRecord.temperature grp)
      /\ EnvironmentSummary.avg_humidity s
         = arithmetic_mean (observed EnvironmentRecord.humidity grp)
      /\ EnvironmentSummary.avg_ph s
         = arithmetic_mean (observed EnvironmentRecord.ph grp)
      /\ EnvironmentSummary.avg_ec s
         = arithmetic_mean (observed EnvironmentRecord.ec grp))
  /\ (forall (growth_df : list GrowthRecord.t) (s : GrowthSummary.t string),
         In s (growth_summary growth_df) ->
         exists k : Qc,
           let grp := group_rows GrowthRecord.ec_goal k growth_df in
           GrowthSummary.ec_goal s = Label.ec_label k
           /\ grp <> []
           /\ GrowthSummary.avg_fresh_weight s
              = arithmetic_mean (observed GrowthRecord.fresh_weight grp)
           /\ GrowthSummary.avg_leaf_count s
              = arithmetic_mean (observed GrowthRecord.leaf_count grp)
           /\ GrowthSummary.avg_shoot_length s
              = arithmetic_mean (observed GrowthRecord.shoot_length grp))
  /\ Agg.mean [Some (Num.of_Z 10); None; Some (Num.of_Z 20)] = Some (Num.of_Z 15).
Proof.
  split; [| split].
  - intros env_df s Hin grp. apply env_summary_In in Hin. destruct Hin as [Hk Es].
    split; [now apply group_rows_nonempty |].
    rewrite Es. unfold observed. cbn [env_summary_row EnvironmentSummary.avg_temp
      EnvironmentSummary.avg_humidity EnvironmentSummary.avg_ph EnvironmentSummary.avg_ec
      EnvironmentSummary.school].
    rewrite !mean_is_arithmetic_mean. auto.
  - intros growth_df s Hin. unfold growth_summary in Hin.
    apply in_map_iff in Hin. destruct Hin as (a & <- & Hin).
    apply growth_agg_In in Hin. destruct Hin as [Hk Ea].
    exists (GrowthSummary.ec_goal a). cbv zeta.
    split; [reflexivity |]. split; [now apply group_rows_nonempty |].
    rewrite Ea. unfold observed. cbn [relabel growth_agg_row GrowthSummary.avg_fresh_weight
      GrowthSummary.avg_leaf_count GrowthSummary.avg_shoot_length GrowthSummary.ec_goal].
    rewrite !mean_is_arithmetic_mean. auto.
  - rewrite mean_is_arithmetic_mean. cbn [present flat_map app arithmetic_mean].
    f_equal. apply Qc_is_canon. vm_compute. reflexivity.
Qed.

Lemma mean_statistics_skip_missing_witness :
  let s := hd (env_with_count 0 (env_summary_row (""%string, []))) (env_summary Sample.songdo_env) in
  In s (env_summary Sample.songdo_env)
  /\ EnvironmentSummary.avg_temp s
     = arithmetic_mean
         (observed EnvironmentRecord.temperature
                   (group_rows EnvironmentRecord.school (EnvironmentSummary.school s)
                               Sample.songdo_env)).
Proof.
  cbv zeta.
  assert (Hin : In (hd (env_with_count 0 (env_summary_row (""%string, [])))
                       (env_summary Sample.songdo_env))
                   (env_summary Sample.songdo_env)).
  { vm_compute. left. reflexivity. }
  split; [exact Hin |].
  exact (proj1 (proj2 (proj1 mean_statistics_skip_missing Sample.songdo_env _ Hin))).
Defined.

(** ** The environment loader, row by row *)

Section EnvRows.
Context {lib : Library}.

Lemma env_df_time_present (data_dir : list Path) (r : EnvironmentRecord.t) :
  In r (env_df data_dir) -> EnvironmentRecord.time r <> None.
Proof.
  intros Hin. apply env_df_In in Hin.
  destruct Hin as (path & cfg & df & row & _ & _ & _ & _ & _ & _ & Ht & ->).
  exact Ht.
Qed.

Lemma env_file_frames_loaded (path : Path) (cfg : SchoolConfig) (df : DataFrame) :
  is_env_csv path = true ->
  lookup (school_of_file path) EC_MAPPING = Some cfg ->
  read_csv path = Returns df ->
  List.length (columns df) = 5%nat ->
  env_file_frames path = [map (env_record df (school_of_file path) cfg) (dropna_time df)]
  /\ env_file_reports path = [].
Proof.
  intros Hm Hl Hr Hc. unfold env_file_frames, env_file_reports, env_step, read_env_csv.
  rewrite Hm, Hl, Hr. apply Nat.eqb_eq in Hc. rewrite Hc. simpl. auto.
Qed.

(** C2. A row of a matched environment CSV is in the unified
    environment table exactly when its timestamp cell parses.  A row
    whose timestamp does not parse is dropped; a row whose timestamp
    parses is kept whatever its numeric cells hold, and each of its
    numeric fields (temperature, humidity, ph, ec) whose cell does not
    parse is missing, not zero. *)
Theorem env_row_kept_iff_time_parses
        (data_dir : list Path) (path : Path) (cfg : SchoolConfig)
        (df : DataFrame) (row : list cell) :
  In path data_dir ->
  is_env_csv path = true ->
  lookup (school_of_file path) EC_MAPPING = Some cfg ->
  read_csv path = Returns df ->
  List.length (columns df) = 5%nat ->
  In row (rows df) ->
  let r := env_record df (school_of_file path) cfg row in
  (In r (env_df data_dir) <-> time_of df row <> None)
  /\ (to_numeric (cell_at 1 row) = None -> EnvironmentRecord.temperature r = None)
  /\ (to_numeric (cell_at 2 row) = None -> EnvironmentRecord.humidity r = None)
  /\ (to_numeric (cell_at 3 row) = None -> EnvironmentRecord.ph r = None)
  /\ (to_numeric (cell_at 4 row) = None -> EnvironmentRecord.ec r = None).
Proof.
  intros Hp Hm Hl Hr Hc Hrow r. split; [| subst r; simpl; auto].
  split.
  - intros Hin. apply env_df_time_present in Hin. exact Hin.
  - intros Ht. rewrite env_df_eq. apply in_concat.
    exists (map (env_record df (school_of_file path) cfg) (dropna_time df)). split.
    + apply in_flat_map. exists path. split; [assumption |].
      destruct (env_file_frames_loaded path Hm Hl Hr Hc) as [-> _]. now left.
    + apply in_map. unfold dropna_time. apply filter_In. split; [assumption |].
      destruct (time_of df row); [reflexivity | contradiction].
Qed.

End EnvRows.

(** The third line of the sample file has a readable time and an
    unreadable temperature: it is kept, its temperature missing. *)
Lemma env_row_kept_iff_time_parses_witness :
  let r := env_record (lib := Sample.library) Sample.songdo_frame "송도고"
                      Sample.songdo_cfg Sample.songdo_line3 in
  In r (env_df (lib := Sample.library) Sample.data_dir)
  /\ EnvironmentRecord.temperature r = None.
Proof.
  cbv zeta.
  pose proof (@env_row_kept_iff_time_parses Sample.library Sample.data_dir Sample.songdo_csv
                Sample.songdo_cfg Sample.songdo_frame Sample.songdo_line3) as T.
  cbv zeta in T.
  destruct T as [Hiff [Htemp _]].
  - simpl. auto.
  - reflexivity.
  - reflexivity.
  - reflexivity.
  - reflexivity.
  - simpl. auto.
  - split.
    + apply Hiff. vm_compute. discriminate.
    + apply Htemp. reflexivity.
Defined.

(** ** Order of the summary rows *)

(** Two schools read in the order 하늘고, 송도고 come out of the
    aggregation in the order 송도고, 하늘고: the order of first occurrence
    is not kept.  The sheets of the sample workbook give the same for
    the growth summary: EC 2.0 occurs first, the label "1.0 EC" comes
    first. *)
Lemma summary_keys_not_in_first_occurrence_order :
  uniques [] (map EnvironmentRecord.school Sample.two_schools_env)
  = ["하늘고"; "송도고"]%string
  /\ map EnvironmentSummary.school (env_summary Sample.two_schools_env)
     = ["송도고"; "하늘고"]%string
  /\ map EnvironmentSummary.school (env_summary Sample.two_schools_env)
     <> uniques [] (map EnvironmentRecord.school Sample.two_schools_env)
  /\ map Label.ec_label
         (uniques [] (map GrowthRecord.ec_goal (growth_df (lib := Sample.library) Sample.data_dir)))
     = ["2.0 EC"; "1.0 EC"]%string
  /\ map GrowthSummary.ec_goal (growth_summary_df (lib := Sample.library) Sample.data_dir)
     = ["1.0 EC"; "2.0 EC"]%string.
Proof.
  split; [reflexivity |]. split; [reflexivity |].
  split; [vm_compute; discriminate |].
  split; vm_compute; reflexivity.
Qed.

(** C3, amended. The keys of a summary are the distinct keys of the
    input table in ascending order (the default [sort=True] of
    [groupby]): every key of the table occurs once, and the rows are
    ordered by school name in the environment summary and by the numeric
    ec_goal, before it is rendered as a label, in the growth summary.
    The order of first occurrence plays no part. *)
Theorem summary_keys_ascending
        (env_df : list EnvironmentRecord.t) (growth_df : list GrowthRecord.t) :
  (StronglySorted key_lt (map EnvironmentSummary.school (env_summary env_df))
   /\ forall k, In k (map EnvironmentSummary.school (env_summary env_df))
                <-> In k (map EnvironmentRecord.school env_df))
  /\ exists goals : list Qc,
      map GrowthSummary.ec_goal (growth_summary growth_df) = map Label.ec_label goals
      /\ StronglySorted key_lt goals
      /\ forall k, In k goals <-> In k (map GrowthRecord.ec_goal growth_df).
Proof.
  split.
  - rewrite env_summary_keys. split; [apply group_keys_strict |].
    intros k. apply group_keys_In.
  - exists (group_keys GrowthRecord.ec_goal growth_df).
    split; [apply growth_summary_labels |].
    split; [apply group_keys_strict |].
    intros k. apply group_keys_In.
Qed.

Lemma summary_keys_ascending_witness :
  StronglySorted key_lt (map EnvironmentSummary.school (env_summary Sample.two_schools_env)).
Proof.
  exact (proj1 (proj1 (summary_keys_ascending Sample.two_schools_env Sample.scenario3_growth))).
Defined.

(** ** The count statistic *)

(** C4. For every grouped table the count is to be the number of rows
    of the group.  The growth summary misses it on a sheet with two
    plants of one school, the second without an individual id: the
    loader keeps both rows and the group has two rows, the overview tab
    counts two plants for the school and two in total, and the summary
    row's mean fresh weight is taken over both plants, 2.5, but its
    count is 1. *)
Theorem growth_summary_count_misses_plant_without_id :
  growth_df (lib := Sample.library) [Sample.unnamed_plant_xlsx] = Sample.unnamed_plant_growth
  /\ map (fun k => List.length (group_rows GrowthRecord.ec_goal k Sample.unnamed_plant_growth))
         (group_keys GrowthRecord.ec_goal Sample.unnamed_plant_growth) = [2%nat]
  /\ map GrowthSummary.count
         (growth_summary_df (lib := Sample.library) [Sample.unnamed_plant_xlsx]) = [1%nat]
  /\ Script.growth_count (growth_result (lib := Sample.library) [Sample.unnamed_plant_xlsx])
                         "송도고" = 2%nat
  /\ Script.total_individuals
       (growth_result (lib := Sample.library) [Sample.unnamed_plant_xlsx]) = 2%nat
  /\ map (fun s => option_map this (GrowthSummary.avg_fresh_weight s))
         (growth_summary_df (lib := Sample.library) [Sample.unnamed_plant_xlsx])
     = [Some (5 # 2)].
Proof. repeat split; vm_compute; reflexivity. Qed.

Lemma group_rows_incl {K R} `{KeyLaws K} (key : R -> K) (k : K) (rows : list R) (r : R) :
  In r (group_rows key k rows) -> In r rows.
Proof. intros Hin. now apply group_rows_In in Hin. Qed.

(** What ['count'] counts: the rows of the group that have an entry in
    the counted column, [time] in the environment summary and
    [individual_id] in the growth summary.  Every row of a loaded
    environment table has a time, so there the count is the number of
    rows of the school; in the growth summary it is the number of rows
    of the group when no id is missing. *)
Theorem count_is_number_of_counted_rows {lib : Library}
        (data_dir : list Path) (growth_df : list GrowthRecord.t) :
  (forall s, In s (env_summary_df data_dir) ->
             EnvironmentSummary.count s
             = List.length (group_rows EnvironmentRecord.school (EnvironmentSummary.school s)
                                       (env_df data_dir)))
  /\ (forall s, In s (growth_summary growth_df) ->
        exists k : Qc,
          let grp := group_rows GrowthRecord.ec_goal k growth_df in
          GrowthSummary.ec_goal s = Label.ec_label k
          /\ GrowthSummary.count s
             = List.length (filter (fun r => notna (GrowthRecord.individual_id r)) grp)
          /\ (Forall (fun r => GrowthRecord.individual_id r <> Blank) grp ->
              GrowthSummary.count s = List.length grp)).
Proof.
  split.
  - intros s Hin. rewrite env_summary_df_eq in Hin.
    apply env_summary_In in Hin. destruct Hin as [_ Es].
    rewrite Es at 1. cbn [env_summary_row EnvironmentSummary.count].
    rewrite <- (length_map EnvironmentRecord.time). apply count_all.
    apply Forall_forall. intros t Ht. apply in_map_iff in Ht.
    destruct Ht as (r & <- & Hr). apply group_rows_incl in Hr.
    apply env_df_time_present in Hr.
    destruct (EnvironmentRecord.time r); [reflexivity | contradiction].
  - intros s Hin. unfold growth_summary in Hin.
    apply in_map_iff in Hin. destruct Hin as (a & <- & Hin).
    apply growth_agg_In in Hin. destruct Hin as [_ Ea].
    exists (GrowthSummary.ec_goal a). cbv zeta.
    split; [reflexivity |].
    set (grp := group_rows GrowthRecord.ec_goal (GrowthSummary.ec_goal a) growth_df) in *.
    assert (Ec : GrowthSummary.count (relabel a)
                 = List.length (filter (fun r => notna (GrowthRecord.individual_id r)) grp)).
    { rewrite Ea. cbn [relabel growth_agg_row GrowthSummary.count]. apply count_map. }
    rewrite Ec. split; [reflexivity |].
    intros Hall. f_equal. apply filter_all.
    eapply Forall_impl; [| exact Hall].
    intros r Hr. simpl in Hr.
    destruct (GrowthRecord.individual_id r); [now contradiction Hr | reflexivity ..].
Qed.

Lemma count_is_number_of_counted_rows_witness :
  let s := hd (env_with_count 0 (env_summary_row (""%string, [])))
              (env_summary_df (lib := Sample.library) Sample.data_dir) in
  In s (env_summary_df (lib := Sample.library) Sample.data_dir)
  /\ EnvironmentSummary.count s
     = List.length (group_rows EnvironmentRecord.school (EnvironmentSummary.school s)
                               (env_df (lib := Sample.library) Sample.data_dir)).
Proof.
  cbv zeta.
  assert (Hin : In (hd (env_with_count 0 (env_summary_row (""%string, [])))
                       (env_summary_df (lib := Sample.library) Sample.data_dir))
                   (env_summary_df (lib := Sample.library) Sample.data_dir)).
  { vm_compute. left. reflexivity. }
  split; [exact Hin |].
  exact (proj1 (count_is_number_of_counted_rows (lib := Sample.library)
                  Sample.data_dir Sample.scenario3_growth) _ Hin).
Defined.

(** ** Aggregating a summary again *)




(** ** The EC label *)

(** In a registry without two schools of the same EC target, the reverse
    lookup of an entry's target finds that entry's school. *)
Lemma schools_with_goal_hd (mapping : list (string * SchoolConfig)) (s : string)
      (cfg : SchoolConfig) :
  NoDup (map (fun e => EC_goal (snd e)) mapping) ->
  In (s, cfg) mapping ->
  Label.schools_with_goal mapping (EC_goal cfg) = [s].
Proof.
  unfold Label.schools_with_goal.
  induction mapping as [| [s' cfg'] rest IH]; simpl; intros Hnd Hin; [contradiction |].
  inversion Hnd as [| ? ? Hna Hnd']; subst.
  destruct Hin as [E | Hin].
  - inversion E; subst. rewrite (proj2 (Num_eqb_eq _ _) eq_refl). simpl. f_equal.
    clear IH Hnd Hnd'. induction rest as [| [s2 c2] rest IHr]; simpl; [reflexivity |].
    simpl in Hna. destruct (Num.eqb (EC_goal c2) (EC_goal cfg)) eqn:E2.
    + apply Num_eqb_eq in E2. exfalso. apply Hna. now left.
    + apply IHr. intros Hin. apply Hna. now right.
  - destruct (Num.eqb (EC_goal cfg') (EC_goal cfg)) eqn:E2.
    + apply Num_eqb_eq in E2. exfalso. apply Hna. rewrite E2.
      apply (in_map (fun e => EC_goal (snd e)) _ _ Hin).
    + now apply IH.
Qed.

Lemma EC_MAPPING_goals_distinct : NoDup (map (fun e => EC_goal (snd e)) EC_MAPPING).
Proof.
  assert (D : forall x y : Qc, Num.eqb x y = false -> x <> y).
  { intros x y E Exy. apply Num_eqb_eq in Exy. congruence. }
  simpl. repeat constructor; simpl; intuition;
    match goal with
    | E : _ = _ |- _ => revert E; apply D; vm_compute; reflexivity
    end.
Qed.

(** C6. For every school of the registry, the label of its EC target is
    the target's text followed by " EC" (1.0 gives "1.0 EC"); the text
    before the first blank of that label parses back to the target, and
    the reverse search of the registry for it returns that school. *)
Theorem ec_label_round_trip (school : string) (cfg : SchoolConfig) :
  In (school, cfg) EC_MAPPING ->
  Label.ec_label (EC_goal cfg) = (Label.str_of_float (EC_goal cfg) ++ " EC")%string
  /\ Label.float_of_str (Text.split_head " " (Label.ec_label (EC_goal cfg)))
     = Some (EC_goal cfg)
  /\ Label.school_of_label EC_MAPPING (Label.ec_label (EC_goal cfg)) = Some school
  /\ Label.ec_label (Num.of_Z 1) = "1.0 EC"%string.
Proof.
  intros Hin. split; [reflexivity |].
  assert (Hparse : Label.float_of_str (Text.split_head " " (Label.ec_label (EC_goal cfg)))
                   = Some (EC_goal cfg)).
  { simpl in Hin.
    destruct Hin as [E | [E | [E | [E | []]]]]; inversion E; subst; simpl EC_goal;
      (match goal with
       | |- ?l = Some ?x =>
           let v := eval vm_compute in l in
           change l with v
       end);
      f_equal; apply Qc_is_canon; reflexivity. }
  split; [exact Hparse |]. split; [| reflexivity].
  unfold Label.school_of_label. rewrite Hparse.
  rewrite (@schools_with_goal_hd EC_MAPPING school cfg EC_MAPPING_goals_distinct Hin). reflexivity.
Qed.

Lemma ec_label_round_trip_witness :
  Label.school_of_label EC_MAPPING (Label.ec_label (Num.of_Z 2)) = Some "하늘고"%string.
Proof.
  refine (proj1 (proj2 (proj2 (ec_label_round_trip
            (school := "하늘고") (cfg := {| EC_goal := Num.of_Z 2; color := "#2ca02c" |}) _)))).
  simpl. right. left. reflexivity.
Defined.

(** ** The raw-data tables and downloads *)

(** Both downloads of the sample tables carry the ec_goal column. *)
Lemma raw_downloads_carry_ec_goal :
  option_map Dashboard.header
             (Dashboard.env_raw_download "송도고"
                (Dashboard.filter_env "송도고" Sample.songdo_env))
  = Some [Text "time"; Text "temperature"; Text "humidity"; Text "ph"; Text "ec";
          Text "school"; Text "ec_goal"]
  /\ option_map Dashboard.header
                (Dashboard.growth_raw_download "전체"
                   (Dashboard.filter_growth "전체" Sample.scenario3_growth))
     = Some [Text "individual_id"; Text "leaf_count"; Text "shoot_length";
             Text "root_length"; Text "fresh_weight"; Text "school"; Text "ec_goal"].
Proof. split; vm_compute; reflexivity. Qed.

(** C7, amended. The tables shown on the two data tabs leave out the
    ec_goal column.  The two raw-data downloads are made from the
    filtered table itself: whenever the filtered table has rows, the
    download's header line lists every column of the table, ec_goal
    included, and its further lines are the rows of the table with all
    their cells. *)
Theorem raw_downloads_keep_every_column
        (selected_school : string)
        (filtered_env_df : list EnvironmentRecord.t)
        (filtered_growth_df : list GrowthRecord.t) :
  (filtered_env_df <> [] ->
   exists d,
     Dashboard.env_raw_download selected_school filtered_env_df = Some d
     /\ Dashboard.header d = map Text (columns (Dashboard.env_frame filtered_env_df))
     /\ In (Text "ec_goal") (Dashboard.header d)
     /\ tl (Dashboard.data d) = map Dashboard.env_cells filtered_env_df)
  /\ (filtered_growth_df <> [] ->
      exists d,
        Dashboard.growth_raw_download selected_school filtered_growth_df = Some d
        /\ Dashboard.header d = map Text (columns (Dashboard.growth_frame filtered_growth_df))
        /\ In (Text "ec_goal") (Dashboard.header d)
        /\ tl (Dashboard.data d) = map Dashboard.growth_cells filtered_growth_df)
  /\ columns (Dashboard.env_raw_table filtered_env_df)
     = ["time"; "temperature"; "humidity"; "ph"; "ec"; "school"]%string
  /\ columns (Dashboard.growth_raw_table filtered_growth_df)
     = ["individual_id"; "leaf_count"; "shoot_length"; "root_length"; "fresh_weight";
        "school"]%string.
Proof.
  split; [| split; [| split; reflexivity]].
  - intros Hne. destruct filtered_env_df as [| r rest]; [contradiction |].
    eexists. split; [reflexivity |].
    split; [reflexivity |]. split; [| reflexivity].
    unfold Dashboard.header. simpl. tauto.
  - intros Hne. destruct filtered_growth_df as [| r rest]; [contradiction |].
    eexists. split; [reflexivity |].
    split; [reflexivity |]. split; [| reflexivity].
    unfold Dashboard.header. simpl. tauto.
Qed.

Lemma raw_downloads_keep_every_column_witness :
  exists d,
    Dashboard.env_raw_download "송도고" Sample.songdo_env = Some d
    /\ Dashboard.header d = map Text (columns (Dashboard.env_frame Sample.songdo_env))
    /\ In (Text "ec_goal") (Dashboard.header d)
    /\ tl (Dashboard.data d) = map Dashboard.env_cells Sample.songdo_env.
Proof.
  apply (proj1 (raw_downloads_keep_every_column "송도고" Sample.songdo_env
                  Sample.scenario3_growth)).
  discriminate.
Defined.

(** ** The empty load *)

(** A matched file all of whose rows are dropped: the loop collects one
    frame, the concatenation is empty, and the loader does not report
    the missing-data condition. *)
Lemma empty_table_without_report :
  fst (env_loop (lib := Sample.library) [Sample.haneul_csv_no_times]) = [[]]
  /\ concat (fst (env_loop (lib := Sample.library) [Sample.haneul_csv_no_times])) = []
  /\ load_and_preprocess_env_data (lib := Sample.library) [Sample.haneul_csv_no_times]
     = ([], ([], [])).
Proof. repeat split; vm_compute; reflexivity. Qed.

(** C8, amended. The loader reports the missing-data condition exactly
    when the loop collected no frame, that is when no matched file
    loaded; it then returns two empty results.  When files loaded and
    their concatenation is empty, every row having been dropped, it
    returns an empty table and an empty summary and reports nothing
    beyond the per-file errors. *)
Theorem env_load_reports_iff_no_frame {lib : Library} (data_dir : list Path) :
  let all_env_data := fst (env_loop data_dir) in
  let file_errors := snd (env_loop data_dir) in
  (all_env_data = [] ->
   load_and_preprocess_env_data data_dir = (file_errors ++ [NoValidEnvFiles], ([], [])))
  /\ (all_env_data <> [] -> env_reported data_dir = file_errors)
  /\ (In NoValidEnvFiles (env_reported data_dir) <-> all_env_data = [])
  /\ (concat all_env_data = [] -> env_df data_dir = [] /\ env_summary_df data_dir = []).
Proof.
  cbv zeta.
  assert (Hno : ~ In NoValidEnvFiles (snd (env_loop data_dir))).
  { intros Hin. apply env_reports_kind in Hin. destruct Hin as [f E]. discriminate. }
  unfold env_reported, env_df, env_summary_df, load_and_preprocess_env_data.
  destruct (env_loop data_dir) as [frames reported] eqn:El. cbn [fst snd] in *.
  destruct frames as [| f fs]; cbn [fst snd].
  - split; [reflexivity |]. split; [intros Hc; now contradiction Hc |].
    split; [| auto]. split; [reflexivity |].
    intros _. apply in_or_app. right. now left.
  - split; [discriminate |]. split; [reflexivity |].
    split; [split; [intros Hin; contradiction | discriminate] |].
    intros ->. auto.
Qed.

Lemma env_load_reports_iff_no_frame_witness :
  env_df (lib := Sample.library) [Sample.haneul_csv_no_times] = []
  /\ env_summary_df (lib := Sample.library) [Sample.haneul_csv_no_times] = [].
Proof.
  apply (proj2 (proj2 (proj2 (env_load_reports_iff_no_frame
                                (lib := Sample.library) [Sample.haneul_csv_no_times])))).
  reflexivity.
Defined.

(** ** Schools of the records *)

Section Registry.
Context {lib : Library}.

(** C9. Every record of the unified environment table and of the
    unified growth table carries a school that is a key of the
    registry, and its ec_goal is the registry's EC target of that
    school.  A matched file or a sheet whose school name is not in
    the registry leaves the loop's state as it was: it adds no record
    and reports nothing. *)
Theorem records_carry_registered_school (data_dir : list Path) :
  (forall r, In r (env_df data_dir) ->
             registered (EnvironmentRecord.school r) (EnvironmentRecord.ec_goal r))
  /\ (forall r, In r (growth_df data_dir) ->
                registered (GrowthRecord.school r) (GrowthRecord.ec_goal r))
  /\ (forall path st,
         is_env_csv path = true ->
         lookup (school_of_file path) EC_MAPPING = None ->
         env_step st path = st)
  /\ (forall xls sheet_name st,
         lookup sheet_name EC_MAPPING = None ->
         growth_step xls st sheet_name = st).
Proof.
  split; [| split; [| split]].
  - intros r Hin. apply env_df_In in Hin.
    destruct Hin as (path & cfg & df & row & _ & _ & Hl & _ & _ & _ & _ & ->).
    exists cfg. simpl. auto.
  - intros r Hin. apply growth_df_In in Hin.
    destruct Hin as (path & xls & sheet_name & cfg & df & row & _ & _ & _ & Hl & _ & _ & ->).
    exists cfg. simpl. auto.
  - intros path st Hm Hl. unfold env_step. now rewrite Hm, Hl.
  - intros xls sheet_name st Hl. unfold growth_step. now rewrite Hl.
Qed.

(** C10. A matched environment CSV adds a frame only when its parsed
    content has exactly five columns.  When it has another number of
    columns, renaming the columns raises: the file is reported through
    the per-file error, it adds nothing, and the table and summary of
    the load are those of the other files. *)
Theorem env_csv_needs_five_columns (path : Path) (before after : list Path) :
  (forall frame, In frame (env_file_frames path) ->
                 exists df, read_csv path = Returns df
                            /\ List.length (columns df) = 5%nat)
  /\ (forall cfg df,
         is_env_csv path = true ->
         lookup (school_of_file path) EC_MAPPING = Some cfg ->
         read_csv path = Returns df ->
         List.length (columns df) <> 5%nat ->
         read_env_csv (school_of_file path) cfg path = Raises
         /\ env_file_frames path = []
         /\ env_file_reports path = [EnvFileLoadError (normalize_NFC (name path))]
         /\ In (EnvFileLoadError (normalize_NFC (name path)))
               (env_reported (before ++ path :: after))
         /\ env_df (before ++ path :: after) = env_df (before ++ after)
         /\ env_summary_df (before ++ path :: after) = env_summary_df (before ++ after)).
Proof.
  split.
  - intros frame Hin.
    destruct (env_file_cases path)
      as [[E _] | [[E _] | (cfg & df & _ & _ & Hr & Hc & _ & _)]];
      [rewrite E in Hin; contradiction | rewrite E in Hin; contradiction |].
    exists df. auto.
  - intros cfg df Hm Hl Hr Hc.
    assert (Hraise : read_env_csv (school_of_file path) cfg path = Raises).
    { unfold read_env_csv. rewrite Hr. apply Nat.eqb_neq in Hc. now rewrite Hc. }
    assert (Hf : env_file_frames path = []).
    { unfold env_file_frames, env_step. now rewrite Hm, Hl, Hraise. }
    assert (He : env_file_reports path = [EnvFileLoadError (normalize_NFC (name path))]).
    { unfold env_file_reports, env_step. now rewrite Hm, Hl, Hraise. }
    assert (Hframes : flat_map env_file_frames (before ++ path :: after)
                      = flat_map env_file_frames (before ++ after)).
    { rewrite !flat_map_app. simpl. now rewrite Hf. }
    split; [exact Hraise |]. split; [exact Hf |]. split; [exact He |].
    split; [| split].
    + unfold env_reported, load_and_preprocess_env_data. rewrite env_loop_eq.
      assert (Hin : In (EnvFileLoadError (normalize_NFC (name path)))
                       (flat_map env_file_reports (before ++ path :: after))).
      { rewrite flat_map_app. apply in_or_app. right. simpl. rewrite He. now left. }
      destruct (flat_map env_file_frames (before ++ path :: after)); cbn [fst];
        [apply in_or_app; now left | exact Hin].
    + rewrite !env_df_eq. now rewrite Hframes.
    + rewrite !env_summary_df_eq, !env_df_eq. now rewrite Hframes.
Qed.

End Registry.

Lemma records_carry_registered_school_witness :
  env_step (lib := Sample.library) ([], []) Sample.other_csv = ([], [])
  /\ registered "송도고" (Num.of_Z 1).
Proof.
  split.
  - apply (proj1 (proj2 (proj2 (records_carry_registered_school
                                  (lib := Sample.library) Sample.data_dir)))).
    + reflexivity.
    + reflexivity.
  - apply (proj1 (records_carry_registered_school (lib := Sample.library) Sample.data_dir)
                 (env_record (lib := Sample.library) Sample.songdo_frame "송도고"
                             Sample.songdo_cfg Sample.songdo_line3)).
    vm_compute. right. left. reflexivity.
Defined.

Lemma env_csv_needs_five_columns_witness :
  env_file_frames (lib := Sample.library) Sample.ara_csv_four_columns = []
  /\ env_df (lib := Sample.library)
            ([Sample.songdo_csv] ++ Sample.ara_csv_four_columns :: [Sample.other_csv])
     = env_df (lib := Sample.library) ([Sample.songdo_csv] ++ [Sample.other_csv]).
Proof.
  destruct (proj2 (env_csv_needs_five_columns (lib := Sample.library)
                     Sample.ara_csv_four_columns [Sample.songdo_csv] [Sample.other_csv])
                  {| EC_goal := Num.of_Z 4; color := "#ff7f0e" |}
                  {| columns := ["시간"; "온도"; "습도"; "pH"]%string;
                     rows := [ [Text "20240501"; Number (Num.of_Z 10); Number (Num.of_Z 50);
                                Number (Num.of_Z 6)] ] |})
    as (_ & Hf & _ & _ & Hd & _).
  - reflexivity.
  - reflexivity.
  - reflexivity.
  - simpl. discriminate.
  - split; [exact Hf | exact Hd].
Defined.


(* ================================================================== *)
(** * Further properties of the loaders and of the script *)

(** ** File names *)

Lemma string_app_assoc (a b c : string) : ((a ++ b) ++ c = a ++ (b ++ c))%string.
Proof. induction a as [| x a IH]; simpl; [reflexivity | now rewrite IH]. Qed.

Lemma from_last_dot_app (x y t : string) :
  Text.from_last_dot y = Some t -> Text.from_last_dot (x ++ y) = Some t.
Proof.
  intros Hy. induction x as [| c x IH]; simpl; [exact Hy |].
  now rewrite IH.
Qed.

Lemma lower_ascii_keeps_dot (c : ascii) : Text.lower_ascii c = "."%char -> c = "."%char.
Proof.
  destruct c as [[] [] [] [] [] [] [] []]; intros E; try reflexivity;
    vm_compute in E; discriminate.
Qed.

(** A text that lower-cases to ".csv" is its own last-dot tail. *)
Lemma csv_extension_shape (ext : string) :
  Text.lower ext = ".csv"%string ->
  Text.from_last_dot ext = Some ext /\ String.length ext = 4%nat.
Proof.
  destruct ext as [| c0 [| c1 [| c2 [| c3 [| c4 r]]]]]; simpl; try discriminate.
  intros E. injection E as E0 E1 E2 E3.
  apply lower_ascii_keeps_dot in E0. subst c0.
  assert (N : forall c d, Text.lower_ascii c = d -> d <> "."%char -> Ascii.eqb c "." = false).
  { intros c d Ec Hd. apply Ascii.eqb_neq. intros ->. apply Hd. rewrite <- Ec. reflexivity. }
  rewrite (N _ _ E1), (N _ _ E2), (N _ _ E3) by discriminate.
  auto.
Qed.

Lemma suffix_of_extension (x ext : string) :
  x <> ""%string ->
  Text.from_last_dot ext = Some ext -> String.length ext <> 1%nat ->
  Text.suffix (x ++ ext) = ext.
Proof.
  intros Hx Hd Hl. destruct x as [| c x]; [contradiction |].
  simpl. rewrite (from_last_dot_app x _ Hd).
  apply Nat.eqb_neq in Hl. now rewrite Hl.
Qed.

Lemma substring_skip (a b : string) (n : nat) :
  substring (String.length a) n (a ++ b) = substring 0 n b.
Proof. induction a as [| c a IH]; simpl; [reflexivity | exact IH]. Qed.

Lemma substring_prefix (t b : string) : substring 0 (String.length t) (t ++ b) = t.
Proof.
  induction t as [| c t IH]; simpl.
  - destruct b; reflexivity.
  - now rewrite IH.
Qed.

Lemma contains_infix (a tok b : string) :
  tok <> ""%string -> Text.contains tok (a ++ tok ++ b) = true.
Proof.
  intros Ht. unfold Text.contains.
  destruct (String.index 0 tok (a ++ tok ++ b)) eqn:E; [reflexivity |].
  exfalso. apply (index_correct3 0 (String.length a) tok (a ++ tok ++ b) E Ht (Nat.le_0_l _)).
  rewrite substring_skip. apply substring_prefix.
Qed.

Lemma contains_after_sep (a : string) (sep : ascii) (tok b : string) :
  tok <> ""%string -> Text.contains tok (a ++ String sep (tok ++ b)) = true.
Proof.
  intros Ht.
  replace (a ++ String sep (tok ++ b))%string with ((a ++ String sep "") ++ tok ++ b)%string.
  - now apply contains_infix.
  - rewrite string_app_assoc. reflexivity.
Qed.

Lemma split_head_app (sep : ascii) (a b : string) :
  lacks sep a = true -> Text.split_head sep (a ++ String sep b) = a.
Proof.
  induction a as [| c a IH]; simpl; intros Hl.
  - now rewrite Ascii.eqb_refl.
  - apply andb_prop in Hl. destruct Hl as [Hc Ha].
    apply negb_true_iff in Hc. rewrite Hc. now rewrite IH.
Qed.

Lemma split_head_lacks (sep : ascii) (s : string) : lacks sep (Text.split_head sep s) = true.
Proof.
  induction s as [| c s IH]; simpl; [reflexivity |].
  destruct (Ascii.eqb c sep) eqn:E; simpl; [reflexivity |].
  now rewrite E, IH.
Qed.

Section FileNames.
Context {lib : Library}.

(** X1. A regular file named [<school>_환경데이터<ext>], where the
    school name has no underscore and the extension is ".csv" in any
    letter case, is taken for an environment CSV and its school name is
    [<school>], provided the name is already in composed form. *)
Theorem env_file_name_recognised (path : Path) (school ext : string) :
  is_file path = true ->
  name path = (school ++ "_환경데이터" ++ ext)%string ->
  normalize_NFC (name path) = name path ->
  Text.lower ext = ".csv"%string ->
  lacks "_" school = true ->
  is_env_csv path = true /\ school_of_file path = school.
Proof.
  intros Hf Hn Hnfc Hext Hschool.
  destruct (csv_extension_shape ext Hext) as [Hdot Hlen].
  unfold is_env_csv, school_of_file. rewrite Hf, Hnfc, Hn. split.
  - assert (Hs : Text.suffix (school ++ "_환경데이터" ++ ext) = ext).
    { rewrite <- string_app_assoc.
      apply suffix_of_extension; [| assumption | rewrite Hlen; discriminate].
      destruct school; discriminate. }
    rewrite Hs, Hext, String.eqb_refl. cbn [andb].
    apply (@contains_after_sep school "_" "환경데이터" ext). discriminate.
  - change (school ++ "_환경데이터" ++ ext)%string
      with (school ++ String "_" ("환경데이터" ++ ext))%string.
    now apply split_head_app.
Qed.

End FileNames.

Lemma env_file_name_recognised_witness :
  is_env_csv (lib := Sample.library) (Sample.csv "하늘고_환경데이터.CSV" Raises) = true
  /\ school_of_file (lib := Sample.library) (Sample.csv "하늘고_환경데이터.CSV" Raises)
     = "하늘고"%string.
Proof.
  apply (env_file_name_recognised (lib := Sample.library)
           (Sample.csv "하늘고_환경데이터.CSV" Raises) "하늘고" ".CSV");
    reflexivity.
Defined.

(** ** The environment loader over a directory *)

Lemma length_concat_sum {A} (ls : list (list A)) :
  List.length (concat ls) = sum_nat (map (@List.length A) ls).
Proof.
  induction ls as [| l ls IH]; simpl; [reflexivity |].
  now rewrite length_app, IH.
Qed.

Lemma sum_nat_cons (x : nat) (l : list nat) : sum_nat (x :: l) = (x + sum_nat l)%nat.
Proof. reflexivity. Qed.

Lemma filter_split_length {A} (f : A -> bool) (l : list A) :
  (List.length (filter f l) + List.length (filter (fun x => negb (f x)) l))%nat
  = List.length l.
Proof.
  induction l as [| a l IH]; simpl; [reflexivity |].
  destruct (f a); simpl; lia.
Qed.

Lemma filter_length_lt {A} (f : A -> bool) (l : list A) (x : A) :
  In x l -> f x = false -> (List.length (filter f l) < List.length l)%nat.
Proof.
  induction l as [| a l IH]; simpl; intros Hin Hx; [contradiction |].
  destruct Hin as [-> | Hin].
  - rewrite Hx. pose proof (filter_length_le f l). lia.
  - specialize (IH Hin Hx). destruct (f a); simpl; lia.
Qed.

Section EnvDirectory.
Context {lib : Library}.

Lemma env_file_length (path : Path) :
  (List.length (concat (env_file_frames path)) <= rows_read path)%nat.
Proof.
  unfold rows_read.
  destruct (env_file_cases path)
    as [[E _] | [[E _] | (cfg & df & Hm & Hl & Hr & Hc & E & _)]];
    rewrite E; simpl; try lia.
  rewrite Hm, Hl, Hr. apply Nat.eqb_eq in Hc. rewrite Hc.
  rewrite app_nil_r, length_map. unfold dropna_time. apply filter_length_le.
Qed.

(** X2. Loading never adds rows: the unified environment table has at
    most as many rows as the frames of the loaded files have together.
    A loaded file contributes its rows minus those whose time does not
    parse, so strictly fewer rows as soon as one time does not parse. *)
Theorem env_table_rows_bounded (data_dir : list Path) :
  (List.length (env_df data_dir) <= sum_nat (map rows_read data_dir))%nat
  /\ forall path cfg df,
      is_env_csv path = true ->
      lookup (school_of_file path) EC_MAPPING = Some cfg ->
      read_csv path = Returns df ->
      List.length (columns df) = 5%nat ->
      exists frame,
        env_file_frames path = [frame]
        /\ (List.length frame
            + List.length (filter (fun row => negb (is_some (time_of df row))) (rows df)))%nat
           = List.length (rows df)
        /\ ((exists row, In row (rows df) /\ time_of df row = None) ->
            (List.length frame < List.length (rows df))%nat).
Proof.
  split.
  - rewrite env_df_eq. induction data_dir as [| path rest IH]; [simpl; lia |].
    change (flat_map env_file_frames (path :: rest))
      with (env_file_frames path ++ flat_map env_file_frames rest).
    change (sum_nat (map rows_read (path :: rest)))
      with (rows_read path + sum_nat (map rows_read rest))%nat.
    rewrite concat_app, length_app.
    apply Nat.add_le_mono; [apply env_file_length | exact IH].
  - intros path cfg df Hm Hl Hr Hc.
    destruct (env_file_frames_loaded path Hm Hl Hr Hc) as [Ef _].
    eexists. split; [exact Ef |].
    rewrite length_map. unfold dropna_time.
    pose proof (filter_split_length (fun row => is_some (time_of df row)) (rows df)) as Hs.
    split; [exact Hs |].
    intros (row & Hin & Ht).
    apply (filter_length_lt _ _ row Hin). now rewrite Ht.
Qed.

(** X3. Loading a directory listing that is two listings one after the
    other gives the rows of the first followed by the rows of the
    second, and the per-file errors of the first followed by those of
    the second: each file is loaded on its own, in listing order. *)
Theorem env_load_of_concatenation (dir1 dir2 : list Path) :
  env_df (dir1 ++ dir2) = env_df dir1 ++ env_df dir2
  /\ snd (env_loop (dir1 ++ dir2)) = snd (env_loop dir1) ++ snd (env_loop dir2).
Proof.
  rewrite !env_df_eq, !env_loop_eq. cbn [snd].
  rewrite !flat_map_app, concat_app. auto.
Qed.

(** X4. The entries of the directory that are not environment CSVs
    (directories, other extensions, names without the marker) play no
    part: the loader returns and reports the same with them removed. *)
Theorem env_load_ignores_other_entries (data_dir : list Path) :
  load_and_preprocess_env_data (filter is_env_csv data_dir)
  = load_and_preprocess_env_data data_dir.
Proof.
  unfold load_and_preprocess_env_data. rewrite !env_loop_eq.
  assert (E : flat_map env_file_frames (filter is_env_csv data_dir)
              = flat_map env_file_frames data_dir
              /\ flat_map env_file_reports (filter is_env_csv data_dir)
                 = flat_map env_file_reports data_dir).
  { induction data_dir as [| path rest [IH1 IH2]]; simpl; [auto |].
    destruct (is_env_csv path) eqn:Hm; simpl; [now rewrite IH1, IH2 |].
    unfold env_file_frames, env_file_reports, env_step. rewrite Hm. simpl. auto. }
  destruct E as [-> ->]. reflexivity.
Qed.

End EnvDirectory.

Lemma env_table_rows_bounded_witness :
  exists frame,
    env_file_frames (lib := Sample.library) Sample.songdo_csv = [frame]
    /\ (List.length frame < List.length (rows Sample.songdo_frame))%nat.
Proof.
  destruct (proj2 (env_table_rows_bounded (lib := Sample.library) Sample.data_dir)
                  Sample.songdo_csv Sample.songdo_cfg Sample.songdo_frame)
    as (frame & Ef & _ & Hlt); try reflexivity.
  exists frame. split; [exact Ef |].
  apply Hlt. exists [Blank; Number (Num.of_Z 11); Number (Num.of_Z 50);
                     Number (Num.of_Z 6); Number (Num.of_Z 1)].
  split; [simpl; auto | reflexivity].
Defined.

(** ** Counts and groups *)

Section Partition.
Context {K R : Type} `{KeyLaws K}.
Variable key : R -> K.

Lemma indicator_sum (k : K) (ks : list K) :
  NoDup ks -> In k ks ->
  sum_nat (map (fun k' => if key_eqb k k' then 1%nat else 0%nat) ks) = 1%nat.
Proof.
  induction ks as [| a ks IH]; simpl; intros Hnd Hin; [contradiction |].
  inversion Hnd as [| ? ? Hna Hnd']; subst.
  destruct (key_eqb k a) eqn:E.
  - apply key_eqb_eq in E. subst a.
    assert (Z : sum_nat (map (fun k' => if key_eqb k k' then 1%nat else 0%nat) ks) = 0%nat).
    { clear IH Hin Hnd Hnd'. induction ks as [| b ks IHk]; simpl; [reflexivity |].
      destruct (key_eqb k b) eqn:Eb.
      - apply key_eqb_eq in Eb. subst b. exfalso. apply Hna. now left.
      - apply IHk. intros Hin. apply Hna. now right. }
    now rewrite Z.
  - destruct Hin as [-> | Hin]; [now rewrite key_eqb_refl in E |].
    now rewrite IH.
Qed.

(** The groups of distinct keys that cover a table partition it. *)
Lemma groups_partition (ks : list K) (rows : list R) :
  NoDup ks -> (forall r, In r rows -> In (key r) ks) ->
  sum_nat (map (fun k => List.length (group_rows key k rows)) ks) = List.length rows.
Proof.
  intros Hnd. induction rows as [| a rows IH]; intros Hcov.
  - clear Hnd Hcov. induction ks as [| k ks IHk]; simpl; [reflexivity | exact IHk].
  - assert (Hstep : sum_nat (map (fun k => List.length (group_rows key k (a :: rows))) ks)
                    = (sum_nat (map (fun k' => if key_eqb (key a) k' then 1 else 0) ks)
                       + sum_nat (map (fun k => List.length (group_rows key k rows)) ks))%nat).
    { clear IH Hnd Hcov. induction ks as [| k ks IHk]; [reflexivity |].
      rewrite !map_cons, !sum_nat_cons, IHk. unfold group_rows. cbn [filter].
      destruct (key_eqb (key a) k); cbn [List.length]; lia. }
    rewrite Hstep, (indicator_sum (key a) Hnd (Hcov a (or_introl eq_refl))).
    rewrite IH by (intros r Hr; apply Hcov; now right). reflexivity.
Qed.

Lemma group_rows_filter (f : R -> bool) (k : K) (rows : list R) :
  filter f (group_rows key k rows) = group_rows key k (filter f rows).
Proof.
  unfold group_rows. induction rows as [| a rows IH]; simpl; [reflexivity |].
  destruct (key_eqb (key a) k) eqn:E, (f a) eqn:F; simpl;
    rewrite ?E, ?F, IH; reflexivity.
Qed.

Lemma group_counts_sum (f : R -> bool) (rows : list R) :
  sum_nat (map (fun k => List.length (filter f (group_rows key k rows)))
               (group_keys key rows))
  = List.length (filter f rows).
Proof.
  rewrite <- (@groups_partition (group_keys key rows) (filter f rows)).
  - f_equal. apply map_ext. intros k. now rewrite group_rows_filter.
  - apply group_keys_NoDup.
  - intros r Hr. apply filter_In in Hr. destruct Hr as [Hr _].
    apply group_keys_In. now apply in_map.
Qed.

End Partition.

(** X5. The counts of a summary add up: over the rows of the environment
    summary to the number of rows of the table that have a time, which
    for a loaded table is the number of its rows; over the rows of the
    growth summary to the number of rows of the table that have an
    individual id. *)
Theorem summary_counts_add_up {lib : Library} (data_dir : list Path)
        (env_tbl : list EnvironmentRecord.t) (growth_tbl : list GrowthRecord.t) :
  sum_nat (map EnvironmentSummary.count (env_summary env_tbl))
  = List.length (filter (fun r => is_some (EnvironmentRecord.time r)) env_tbl)
  /\ sum_nat (map EnvironmentSummary.count (env_summary_df data_dir))
     = List.length (env_df data_dir)
  /\ sum_nat (map GrowthSummary.count (growth_summary growth_tbl))
     = List.length (filter (fun r => notna (GrowthRecord.individual_id r)) growth_tbl).
Proof.
  assert (Henv : forall tbl,
             sum_nat (map EnvironmentSummary.count (env_summary tbl))
             = List.length (filter (fun r => is_some (EnvironmentRecord.time r)) tbl)).
  { intros tbl. rewrite <- (group_counts_sum EnvironmentRecord.school).
    unfold env_summary, groupby. rewrite !map_map. f_equal. apply map_ext. intros k.
    cbn [env_summary_row EnvironmentSummary.count]. apply count_map. }
  split; [apply Henv |]. split.
  - rewrite env_summary_df_eq, Henv. f_equal. apply filter_all.
    apply Forall_forall. intros r Hr. apply env_df_time_present in Hr.
    destruct (EnvironmentRecord.time r); [reflexivity | contradiction].
  - rewrite <- (group_counts_sum GrowthRecord.ec_goal).
    unfold growth_summary, growth_agg, groupby. rewrite !map_map. f_equal.
    apply map_ext. intros k.
    cbn [relabel growth_agg_row GrowthSummary.count]. apply count_map.
Qed.

(** ** The frames the script receives *)

Lemma lookup_In {V} (name : string) (mapping : list (string * V)) (v : V) :
  lookup name mapping = Some v -> In (name, v) mapping.
Proof.
  unfold lookup. induction mapping as [| [k w] rest IH]; [discriminate |].
  destruct (String.eqb name k) eqn:E.
  - apply String.eqb_eq in E. subst k. intros [= ->]. now left.
  - intros Hl. right. now apply IH.
Qed.

Lemma lookup_of_In {V} (name : string) (mapping : list (string * V)) (v : V) :
  NoDup (map fst mapping) -> In (name, v) mapping -> lookup name mapping = Some v.
Proof.
  unfold lookup. induction mapping as [| [k w] rest IH]; simpl; intros Hnd Hin; [contradiction |].
  inversion Hnd as [| ? ? Hna Hnd']; subst.
  destruct Hin as [E | Hin].
  - inversion E; subst. now rewrite String.eqb_refl.
  - destruct (String.eqb name k) eqn:E.
    + apply String.eqb_eq in E. subst k. exfalso. apply Hna.
      apply (in_map fst _ _ Hin).
    + now apply IH.
Qed.

Lemma EC_MAPPING_keys_distinct : NoDup (map fst EC_MAPPING).
Proof.
  simpl. repeat constructor; simpl; intuition;
    match goal with
    | E : _ = _ |- _ => apply String.eqb_eq in E; vm_compute in E; discriminate
    end.
Qed.

(** Two registry entries with the same EC target are the same entry. *)
Lemma registry_goal_injective (s1 s2 : string) (c1 c2 : SchoolConfig) :
  In (s1, c1) EC_MAPPING -> In (s2, c2) EC_MAPPING ->
  EC_goal c1 = EC_goal c2 -> s1 = s2.
Proof.
  intros H1 H2 E.
  pose proof (@schools_with_goal_hd EC_MAPPING s1 c1 EC_MAPPING_goals_distinct H1) as G1.
  pose proof (@schools_with_goal_hd EC_MAPPING s2 c2 EC_MAPPING_goals_distinct H2) as G2.
  rewrite E in G1. rewrite G1 in G2. now injection G2.
Qed.

(** The label of a registry entry's EC target parses back to it. *)
Lemma registry_label_parses (school : string) (cfg : SchoolConfig) :
  In (school, cfg) EC_MAPPING ->
  Label.float_of_str (Text.split_head " " (Label.ec_label (EC_goal cfg))) = Some (EC_goal cfg).
Proof.
  intros Hin. simpl in Hin.
  destruct Hin as [E | [E | [E | [E | []]]]]; inversion E; subst; simpl EC_goal;
    (match goal with
     | |- ?l = Some ?x =>
         let v := eval vm_compute in l in
         change l with v
     end);
    f_equal; apply Qc_is_canon; reflexivity.
Qed.

Lemma registry_label_school (school : string) (cfg : SchoolConfig) :
  In (school, cfg) EC_MAPPING ->
  Label.school_of_label EC_MAPPING (Label.ec_label (EC_goal cfg)) = Some school.
Proof.
  intros Hin. unfold Label.school_of_label.
  rewrite (registry_label_parses Hin).
  now rewrite (@schools_with_goal_hd EC_MAPPING school cfg EC_MAPPING_goals_distinct Hin).
Qed.

Lemma collect_returns {A B} (f : A -> outcome B) (g : A -> B) (l : list A) :
  (forall a, In a l -> f a = Returns (g a)) -> Script.collect f l = Returns (map g l).
Proof.
  induction l as [| a l IH]; simpl; intros Hf; [reflexivity |].
  rewrite (Hf a (or_introl eq_refl)), IH; [reflexivity |].
  intros b Hb. apply Hf. now right.
Qed.

Section Frames.
Context {lib : Library}.

Lemma env_result_records (data_dir : list Path) :
  Script.records (env_result data_dir) = env_df data_dir.
Proof.
  unfold env_result, env_df, load_and_preprocess_env_data.
  destruct (env_loop data_dir) as [[| f fs] reported]; reflexivity.
Qed.

Lemma growth_result_records (data_dir : list Path) :
  Script.records (growth_result data_dir) = growth_df data_dir.
Proof.
  unfold growth_result, growth_df, load_and_preprocess_growth_data.
  destruct (xlsx_path data_dir) as [path |]; [| reflexivity].
  destruct (open_excel path) as [| xls]; [reflexivity |].
  destruct (growth_loop xls) as [[| f fs] reported]; reflexivity.
Qed.

Lemma growth_summary_df_eq (data_dir : list Path) :
  growth_summary_df data_dir = growth_summary (growth_df data_dir).
Proof.
  unfold growth_summary_df, growth_df, load_and_preprocess_growth_data.
  destruct (xlsx_path data_dir) as [path |]; [| reflexivity].
  destruct (open_excel path) as [| xls]; [reflexivity |].
  destruct (growth_loop xls) as [[| f fs] reported]; reflexivity.
Qed.

Lemma env_df_registered (data_dir : list Path) (r : EnvironmentRecord.t) :
  In r (env_df data_dir) ->
  exists cfg, In (EnvironmentRecord.school r, cfg) EC_MAPPING
              /\ EnvironmentRecord.ec_goal r = EC_goal cfg.
Proof.
  intros Hin. apply env_df_In in Hin.
  destruct Hin as (path & cfg & df & row & _ & _ & Hl & _ & _ & _ & _ & ->).
  exists cfg. split; [now apply lookup_In | reflexivity].
Qed.

Lemma growth_df_registered (data_dir : list Path) (r : GrowthRecord.t) :
  In r (growth_df data_dir) ->
  exists cfg, In (GrowthRecord.school r, cfg) EC_MAPPING
              /\ GrowthRecord.ec_goal r = EC_goal cfg.
Proof.
  intros Hin. apply growth_df_In in Hin.
  destruct Hin as (path & xls & sheet_name & cfg & df & row & _ & _ & _ & Hl & _ & _ & ->).
  exists cfg. split; [now apply lookup_In | reflexivity].
Qed.

End Frames.

(** ** The summaries of a load *)

Lemma first_of_somes {A B} (f : A -> B) (l : list A) :
  Agg.first (map (fun r => Some (f r)) l) = option_map f (hd_error l).
Proof. destruct l; reflexivity. Qed.

Section LoadedSummaries.
Context {lib : Library}.

(** X6. The environment summary of a load has one row per school that
    has rows, no school twice, hence at most as many rows as the
    registry has schools; each row's school is a registry key and its
    ec_goal column is that school's EC target; and the colour lookup of
    the environment charts, [EC_MAPPING[s]['color']] for each row,
    finds a colour for every row. *)
Theorem env_summary_of_load (data_dir : list Path) :
  NoDup (map EnvironmentSummary.school (env_summary_df data_dir))
  /\ (List.length (env_summary_df data_dir) <= List.length EC_MAPPING)%nat
  /\ (forall s, In s (env_summary_df data_dir) ->
                exists cfg,
                  lookup (EnvironmentSummary.school s) EC_MAPPING = Some cfg
                  /\ EnvironmentSummary.ec_goal s = Some (EC_goal cfg))
  /\ exists colors,
      Script.marker_colors (env_summary_df data_dir) = Returns colors
      /\ List.length colors = List.length (env_summary_df data_dir).
Proof.
  assert (Hrows : forall s, In s (env_summary_df data_dir) ->
                            exists cfg,
                              lookup (EnvironmentSummary.school s) EC_MAPPING = Some cfg
                              /\ EnvironmentSummary.ec_goal s = Some (EC_goal cfg)).
  { intros s Hin. rewrite env_summary_df_eq in Hin.
    apply env_summary_In in Hin. destruct Hin as [Hk Es].
    set (grp := group_rows EnvironmentRecord.school (EnvironmentSummary.school s)
                           (env_df data_dir)) in *.
    assert (Hg : EnvironmentSummary.ec_goal s
                 = option_map EnvironmentRecord.ec_goal (hd_error grp)).
    { rewrite Es at 1. cbn [env_summary_row EnvironmentSummary.ec_goal].
      apply first_of_somes. }
    assert (Hne : grp <> []) by (apply group_rows_nonempty; exact Hk).
    destruct grp as [| r rest] eqn:Eg; [contradiction |].
    assert (Hr : In r (group_rows EnvironmentRecord.school (EnvironmentSummary.school s)
                                  (env_df data_dir))).
    { unfold grp in Eg. rewrite Eg. now left. }
    apply group_rows_In in Hr. destruct Hr as [Hr Hs].
    destruct (env_df_registered data_dir r Hr) as (cfg & Hc & Hgoal).
    exists cfg. split.
    - rewrite <- Hs. apply lookup_of_In; [apply EC_MAPPING_keys_distinct | exact Hc].
    - rewrite Hg. simpl. now rewrite Hgoal. }
  assert (Hnd : NoDup (map EnvironmentSummary.school (env_summary_df data_dir))).
  { rewrite env_summary_df_eq, env_summary_keys. apply group_keys_NoDup. }
  split; [exact Hnd |]. split; [| split; [exact Hrows |]].
  - rewrite <- (length_map EnvironmentSummary.school),
            <- (length_map fst EC_MAPPING).
    apply NoDup_incl_length; [exact Hnd |].
    intros k Hk. apply in_map_iff in Hk. destruct Hk as (s & <- & Hs).
    destruct (Hrows s Hs) as (cfg & Hl & _).
    apply lookup_In in Hl. apply (in_map fst _ _ Hl).
  - eexists. split.
    + unfold Script.marker_colors.
      apply (collect_returns
               _ (fun s => match lookup (EnvironmentSummary.school s) EC_MAPPING with
                           | Some cfg => color cfg
                           | None => ""%string
                           end)).
      intros s Hs. destruct (Hrows s Hs) as (cfg & -> & _). reflexivity.
    + apply length_map.
Qed.

(** The school behind a row of the growth summary of a load. *)
Lemma loaded_growth_row (data_dir : list Path) (s : GrowthSummary.t string) :
  In s (growth_summary_df data_dir) ->
  exists school cfg,
    lookup school EC_MAPPING = Some cfg
    /\ GrowthSummary.ec_goal s = Label.ec_label (EC_goal cfg)
    /\ Label.school_of_label EC_MAPPING (GrowthSummary.ec_goal s) = Some school
    /\ Script.color_of_label (GrowthSummary.ec_goal s) = Returns (color cfg)
    /\ forall r, In r (growth_df data_dir) ->
                 (GrowthRecord.ec_goal r = EC_goal cfg
                  <-> GrowthRecord.school r = school).
Proof.
  revert s. intros s Hin. rewrite growth_summary_df_eq in Hin. unfold growth_summary in Hin.
  apply in_map_iff in Hin. destruct Hin as (a & <- & Hin).
  apply growth_agg_In in Hin. destruct Hin as [Hk _].
  apply in_map_iff in Hk. destruct Hk as (r0 & Ek & Hr0).
  destruct (growth_df_registered data_dir r0 Hr0) as (cfg & Hc & Hgoal).
  pose proof (@lookup_of_In _ _ _ _ EC_MAPPING_keys_distinct Hc) as Hl.
  exists (GrowthRecord.school r0), cfg.
  assert (El : GrowthSummary.ec_goal (relabel a) = Label.ec_label (EC_goal cfg)).
  { cbn [relabel GrowthSummary.ec_goal]. now rewrite <- Ek, Hgoal. }
  split; [exact Hl |]. split; [exact El |].
  assert (Hs : Label.school_of_label EC_MAPPING (GrowthSummary.ec_goal (relabel a))
               = Some (GrowthRecord.school r0)).
  { rewrite El. now apply registry_label_school. }
  split; [exact Hs |]. split.
  - unfold Script.color_of_label. now rewrite Hs, Hl.
  - intros r Hr. destruct (growth_df_registered data_dir r Hr) as (cfg' & Hc' & Hgoal').
    split.
    + intros E. rewrite Hgoal' in E. apply (registry_goal_injective Hc' Hc E).
    + intros E. rewrite E in Hc'.
      pose proof (@lookup_of_In _ _ _ _ EC_MAPPING_keys_distinct Hc') as Hl'.
      rewrite Hl in Hl'. injection Hl' as ->. exact Hgoal'.
Qed.

(** X7. Every row of the growth summary of a load belongs to one school
    of the registry: its label is the label of that school's EC target,
    the reverse lookup of line 386 returns that school, the colour
    lookup of the cards and bars returns that school's colour, and the
    rows of the table with the group's ec_goal are the rows of that
    school.  So line 386 and the bar colours never raise on a loaded
    summary, which has at most as many rows as the registry has
    schools. *)
Theorem growth_summary_of_load (data_dir : list Path) :
  (forall s, In s (growth_summary_df data_dir) ->
             exists school cfg,
               lookup school EC_MAPPING = Some cfg
               /\ GrowthSummary.ec_goal s = Label.ec_label (EC_goal cfg)
               /\ Label.school_of_label EC_MAPPING (GrowthSummary.ec_goal s) = Some school
               /\ Script.color_of_label (GrowthSummary.ec_goal s) = Returns (color cfg)
               /\ forall r, In r (growth_df data_dir) ->
                            (GrowthRecord.ec_goal r = EC_goal cfg
                             <-> GrowthRecord.school r = school))
  /\ (exists colors,
         Script.bar_colors (growth_summary_df data_dir) = Returns colors
         /\ List.length colors = List.length (growth_summary_df data_dir))
  /\ (List.length (growth_summary_df data_dir) <= List.length EC_MAPPING)%nat.
Proof.
  assert (Hrows : forall s, In s (growth_summary_df data_dir) ->
             exists school cfg,
               lookup school EC_MAPPING = Some cfg
               /\ GrowthSummary.ec_goal s = Label.ec_label (EC_goal cfg)
               /\ Label.school_of_label EC_MAPPING (GrowthSummary.ec_goal s) = Some school
               /\ Script.color_of_label (GrowthSummary.ec_goal s) = Returns (color cfg)
               /\ forall r, In r (growth_df data_dir) ->
                            (GrowthRecord.ec_goal r = EC_goal cfg
                             <-> GrowthRecord.school r = school)).
  { intros s Hin. now apply loaded_growth_row. }
  split; [exact Hrows |]. split.
  - exists (map (fun s => match Script.color_of_label (GrowthSummary.ec_goal s) with
                          | Returns c => c
                          | Raises => ""%string
                          end) (growth_summary_df data_dir)).
    split; [| apply length_map].
    unfold Script.bar_colors. apply collect_returns.
    intros s Hs. destruct (Hrows s Hs) as (school & cfg & _ & _ & _ & -> & _). reflexivity.
  - rewrite growth_summary_df_eq. unfold growth_summary. rewrite length_map.
    rewrite <- (length_map GrowthSummary.ec_goal), growth_agg_keys.
    rewrite <- (length_map (fun e => EC_goal (snd e)) EC_MAPPING).
    apply NoDup_incl_length; [apply group_keys_NoDup |].
    intros k Hk. apply group_keys_In in Hk.
    apply in_map_iff in Hk. destruct Hk as (r & <- & Hr).
    destruct (growth_df_registered data_dir r Hr) as (cfg & Hc & ->).
    apply (in_map (fun e => EC_goal (snd e)) _ _ Hc).
Qed.

End LoadedSummaries.

Lemma env_summary_of_load_witness :
  exists cfg,
    lookup "송도고" EC_MAPPING = Some cfg
    /\ EnvironmentSummary.ec_goal
         (hd (env_with_count 0 (env_summary_row (""%string, [])))
             (env_summary_df (lib := Sample.library) Sample.data_dir))
       = Some (EC_goal cfg).
Proof.
  apply (proj1 (proj2 (proj2 (env_summary_of_load (lib := Sample.library) Sample.data_dir)))
               (hd (env_with_count 0 (env_summary_row (""%string, [])))
                   (env_summary_df (lib := Sample.library) Sample.data_dir))).
  vm_compute. left. reflexivity.
Defined.

Lemma growth_summary_of_load_witness :
  exists school cfg,
    lookup school EC_MAPPING = Some cfg
    /\ Label.school_of_label EC_MAPPING
         (GrowthSummary.ec_goal
            (hd (relabel (growth_agg_row (Num.of_Z 0, [])))
                (growth_summary_df (lib := Sample.library) Sample.data_dir)))
       = Some school.
Proof.
  destruct (proj1 (growth_summary_of_load (lib := Sample.library) Sample.data_dir)
                  (hd (relabel (growth_agg_row (Num.of_Z 0, [])))
                      (growth_summary_df (lib := Sample.library) Sample.data_dir)))
    as (school & cfg & Hl & _ & Hs & _).
  - vm_compute. left. reflexivity.
  - exists school, cfg. split; [exact Hl | exact Hs].
Defined.

(** ** The overview tab *)

Lemma growth_count_eq (f : Script.frame GrowthRecord.t) (school : string) :
  Script.growth_count f school
  = List.length (filter (fun r => String.eqb (GrowthRecord.school r) school)
                        (Script.records f)).
Proof.
  unfold Script.growth_count. destruct f as [| [| r rs]]; reflexivity.
Qed.

Lemma total_individuals_eq (f : Script.frame GrowthRecord.t) :
  Script.total_individuals f = List.length (Script.records f).
Proof. destruct f as [| [| r rs]]; reflexivity. Qed.

Section Overview.
Context {lib : Library}.

(** X8. The plant counts of the overview table add up to the total
    number of plants shown beside it: every row of a loaded growth
    table belongs to exactly one school of the registry. *)
Theorem overview_counts_add_up (data_dir : list Path) :
  sum_nat (map (fun line => snd line) (Script.ec_table (growth_result data_dir)))
  = Script.total_individuals (growth_result data_dir).
Proof.
  unfold Script.ec_table. rewrite map_map. cbn [snd].
  rewrite total_individuals_eq, growth_result_records.
  rewrite <- (@groups_partition _ _ _ _ GrowthRecord.school (map fst EC_MAPPING)
                                (growth_df data_dir)).
  - rewrite map_map. f_equal. apply map_ext. intros e.
    now rewrite growth_count_eq, growth_result_records.
  - apply EC_MAPPING_keys_distinct.
  - intros r Hr. destruct (growth_df_registered data_dir r Hr) as (cfg & Hc & _).
    apply (in_map fst _ _ Hc).
Qed.

(** X9. The count of a row of the growth summary of a load is the
    number of plants of its school that have an individual id.  It
    never exceeds the number of plants the overview table shows for
    that school, and equals it when no plant of the school lacks an
    id. *)
Theorem summary_count_and_overview_count
        (data_dir : list Path) (s : GrowthSummary.t string) (school : string) :
  In s (growth_summary_df data_dir) ->
  Label.school_of_label EC_MAPPING (GrowthSummary.ec_goal s) = Some school ->
  let plants := filter (fun r => String.eqb (GrowthRecord.school r) school)
                       (growth_df data_dir) in
  GrowthSummary.count s
  = List.length (filter (fun r => notna (GrowthRecord.individual_id r)) plants)
  /\ (GrowthSummary.count s <= Script.growth_count (growth_result data_dir) school)%nat
  /\ (Forall (fun r => GrowthRecord.individual_id r <> Blank) plants ->
      GrowthSummary.count s = Script.growth_count (growth_result data_dir) school).
Proof.
  intros Hin Hschool plants.
  destruct (loaded_growth_row data_dir s Hin) as (school' & cfg & Hl & El & Hs' & _ & Hiff).
  rewrite Hschool in Hs'. injection Hs' as <-.
  assert (Ec : GrowthSummary.count s
               = List.length (filter (fun r => notna (GrowthRecord.individual_id r)) plants)).
  { rewrite growth_summary_df_eq in Hin. unfold growth_summary in Hin.
    apply in_map_iff in Hin. destruct Hin as (a & <- & Hin).
    apply growth_agg_In in Hin. destruct Hin as [Hk Ea].
    apply in_map_iff in Hk. destruct Hk as (r0 & Ek & Hr0).
    assert (Eg : GrowthSummary.ec_goal a = EC_goal cfg).
    { rewrite <- Ek. apply Hiff; [exact Hr0 |].
      destruct (growth_df_registered data_dir r0 Hr0) as (cfg0 & Hc0 & Hg0).
      cbn [relabel GrowthSummary.ec_goal] in El. rewrite <- Ek, Hg0 in El.
      pose proof (lookup_In _ _ Hl) as Hc.
      assert (Hsch : Label.school_of_label EC_MAPPING (Label.ec_label (EC_goal cfg0))
                     = Some (GrowthRecord.school r0))
        by now apply registry_label_school.
      rewrite El in Hsch. rewrite (registry_label_school Hc) in Hsch.
      now injection Hsch. }
    assert (Egrp : group_rows GrowthRecord.ec_goal (GrowthSummary.ec_goal a)
                              (growth_df data_dir) = plants).
    { unfold group_rows, plants. apply filter_ext_in. intros r Hr.
      rewrite Eg. destruct (Hiff r Hr) as [H1 H2].
      destruct (key_eqb (GrowthRecord.ec_goal r) (EC_goal cfg)) eqn:E1,
               (String.eqb (GrowthRecord.school r) school) eqn:E2; try reflexivity.
      - apply Num_eqb_eq in E1. apply H1 in E1. apply String.eqb_neq in E2. contradiction.
      - apply String.eqb_eq in E2. apply H2 in E2.
        apply (proj2 (Num_eqb_eq _ _)) in E2. simpl in E1. congruence. }
    rewrite Ea. cbn [relabel growth_agg_row GrowthSummary.count].
    rewrite Egrp. apply count_map. }
  rewrite growth_count_eq, growth_result_records. fold plants.
  split; [exact Ec |]. split.
  - rewrite Ec. apply filter_length_le.
  - intros Hall. rewrite Ec. f_equal. apply filter_all.
    eapply Forall_impl; [| exact Hall].
    intros r Hr. simpl in Hr.
    destruct (GrowthRecord.individual_id r); [now contradiction Hr | reflexivity ..].
Qed.

End Overview.

Lemma summary_count_and_overview_count_witness :
  GrowthSummary.count
    (hd (relabel (growth_agg_row (Num.of_Z 0, [])))
        (growth_summary_df (lib := Sample.library) Sample.data_dir))
  = Script.growth_count (growth_result (lib := Sample.library) Sample.data_dir) "송도고".
Proof.
  apply (@summary_count_and_overview_count Sample.library Sample.data_dir
           (hd (relabel (growth_agg_row (Num.of_Z 0, [])))
               (growth_summary_df (lib := Sample.library) Sample.data_dir)) "송도고").
  - vm_compute. left. reflexivity.
  - vm_compute. reflexivity.
  - vm_compute. repeat constructor; discriminate.
Defined.

(** ** The growth loader over a workbook *)

Section GrowthWorkbook.
Context {lib : Library}.

Lemma growth_loop_eq (xls : ExcelFile) :
  growth_loop xls
  = (flat_map (growth_sheet_frames xls) (map normalize_NFC (sheet_names xls)),
     flat_map (growth_sheet_reports xls) (map normalize_NFC (sheet_names xls))).
Proof. unfold growth_loop. now rewrite growth_fold. Qed.

Lemma growth_sheet_cases (xls : ExcelFile) (sheet_name : string) :
  (growth_sheet_frames xls sheet_name = [] /\ growth_sheet_reports xls sheet_name = [])
  \/ (growth_sheet_frames xls sheet_name = []
      /\ growth_sheet_reports xls sheet_name = [GrowthSheetLoadWarning sheet_name])
  \/ (exists frame, growth_sheet_frames xls sheet_name = [frame]
                    /\ growth_sheet_reports xls sheet_name = []).
Proof.
  unfold growth_sheet_frames, growth_sheet_reports, growth_step.
  destruct (lookup sheet_name EC_MAPPING) as [cfg |]; simpl; [| auto].
  destruct (read_growth_sheet xls sheet_name cfg) as [| frame]; simpl; [auto |].
  right. right. eauto.
Qed.

Lemma growth_reports_kind (xls : ExcelFile) (m : message) :
  In m (snd (growth_loop xls)) -> exists sheet_name, m = GrowthSheetLoadWarning sheet_name.
Proof.
  rewrite growth_loop_eq. cbn [snd]. rewrite in_flat_map. intros (nm & _ & Hin).
  destruct (growth_sheet_cases xls nm) as [[_ E] | [[_ E] | (frame & _ & E)]];
    rewrite E in Hin; simpl in Hin; try contradiction.
  destruct Hin as [<- | []]. eauto.
Qed.

(** X10. Every row of a sheet that loads becomes a record: a registered
    sheet whose parsed frame has five columns adds one record per row,
    in row order, whatever its cells hold, each record carrying the
    first cell as its individual id.  No row of a sheet is dropped. *)
Theorem growth_sheet_keeps_every_row
        (xls : ExcelFile) (sheet_name : string) (cfg : SchoolConfig) (df : DataFrame) :
  lookup sheet_name EC_MAPPING = Some cfg ->
  parse xls sheet_name = Returns df ->
  List.length (columns df) = 5%nat ->
  exists frame,
    growth_sheet_frames xls sheet_name = [frame]
    /\ growth_sheet_reports xls sheet_name = []
    /\ List.length frame = List.length (rows df)
    /\ map GrowthRecord.individual_id frame = map (cell_at 0) (rows df)
    /\ Forall (fun r => GrowthRecord.school r = sheet_name) frame.
Proof.
  intros Hl Hp Hc.
  exists (map (growth_record sheet_name cfg) (rows df)).
  unfold growth_sheet_frames, growth_sheet_reports, growth_step, read_growth_sheet.
  rewrite Hl, Hp. apply Nat.eqb_eq in Hc. rewrite Hc. cbn [fst snd app].
  split; [reflexivity |]. split; [reflexivity |].
  split; [apply length_map |]. split.
  - rewrite map_map. reflexivity.
  - apply Forall_forall. intros r Hr. apply in_map_iff in Hr.
    destruct Hr as (row & <- & _). reflexivity.
Qed.

(** X11. A registered sheet that cannot be parsed, or whose parsed frame
    does not have five columns, is reported by a warning naming the
    sheet and adds nothing; the growth table of the workbook is that of
    its other sheets.  A sheet whose name is not in the registry adds
    nothing and is not reported. *)
Theorem growth_sheet_failure_is_local
        (xls : ExcelFile) (sheet_name : string) (cfg : SchoolConfig)
        (before after : list string) :
  lookup sheet_name EC_MAPPING = Some cfg ->
  (parse xls sheet_name = Raises
   \/ exists df, parse xls sheet_name = Returns df /\ List.length (columns df) <> 5%nat) ->
  growth_sheet_frames xls sheet_name = []
  /\ growth_sheet_reports xls sheet_name = [GrowthSheetLoadWarning sheet_name]
  /\ fst (fold_left (growth_step xls) (before ++ sheet_name :: after) ([], []))
     = fst (fold_left (growth_step xls) (before ++ after) ([], []))
  /\ In (GrowthSheetLoadWarning sheet_name)
        (snd (fold_left (growth_step xls) (before ++ sheet_name :: after) ([], []))).
Proof.
  intros Hl Hbad.
  assert (Hr : read_growth_sheet xls sheet_name cfg = Raises).
  { unfold read_growth_sheet. destruct Hbad as [-> | (df & -> & Hc)]; [reflexivity |].
    apply Nat.eqb_neq in Hc. now rewrite Hc. }
  assert (Hf : growth_sheet_frames xls sheet_name = []).
  { unfold growth_sheet_frames, growth_step. now rewrite Hl, Hr. }
  assert (He : growth_sheet_reports xls sheet_name = [GrowthSheetLoadWarning sheet_name]).
  { unfold growth_sheet_reports, growth_step. now rewrite Hl, Hr. }
  split; [exact Hf |]. split; [exact He |].
  rewrite !growth_fold. cbn [fst snd app]. rewrite !flat_map_app. cbn [flat_map].
  rewrite Hf, He. split; [reflexivity |].
  apply in_or_app. right. now left.
Qed.

(** X12. The growth loader reads the first workbook of the listing and
    nothing else: entries before it that are not growth workbooks and
    all entries after it, further workbooks included, do not change
    what it returns and reports. *)
Theorem growth_load_reads_first_workbook (before after : list Path) (path : Path) :
  is_growth_xlsx path = true ->
  Forall (fun p => is_growth_xlsx p = false) before ->
  xlsx_path (before ++ path :: after) = Some path
  /\ load_and_preprocess_growth_data (before ++ path :: after)
     = load_and_preprocess_growth_data [path].
Proof.
  intros Hm Hb.
  assert (Hx : xlsx_path (before ++ path :: after) = Some path).
  { unfold xlsx_path. induction Hb as [| p rest Hp _ IH]; simpl.
    - now rewrite Hm.
    - now rewrite Hp. }
  split; [exact Hx |].
  unfold load_and_preprocess_growth_data. rewrite Hx.
  unfold xlsx_path. simpl. rewrite Hm. reflexivity.
Qed.

(** X13. The growth loader reports that no workbook was found exactly
    when the listing holds no growth workbook.  It returns
    [pd.DataFrame()] exactly when it reported one of its three
    missing-data conditions (no workbook, workbook not readable, no
    loadable sheet); the warnings of single sheets alone never empty
    the result.  In each of the three cases both results are empty. *)
Theorem growth_load_outcomes (data_dir : list Path) :
  (In NoGrowthFile (fst (load_and_preprocess_growth_data data_dir))
   <-> Forall (fun p => is_growth_xlsx p = false) data_dir)
  /\ (In NoGrowthFile (fst (load_and_preprocess_growth_data data_dir))
      \/ In GrowthFileReadError (fst (load_and_preprocess_growth_data data_dir))
      \/ In NoValidGrowthSheets (fst (load_and_preprocess_growth_data data_dir))
      <-> growth_result data_dir = Script.NoColumns)
  /\ (growth_result data_dir = Script.NoColumns ->
      growth_df data_dir = [] /\ growth_summary_df data_dir = []).
Proof.
  unfold growth_result, growth_df, growth_summary_df, load_and_preprocess_growth_data.
  assert (Hfind : xlsx_path data_dir = None
                  <-> Forall (fun p => is_growth_xlsx p = false) data_dir).
  { unfold xlsx_path. split.
    - intros Hn. apply Forall_forall. intros p Hp. apply (find_none _ _ Hn p Hp).
    - intros Hall. induction Hall as [| p rest Hp _ IH]; simpl; [reflexivity |].
      now rewrite Hp. }
  destruct (xlsx_path data_dir) as [path |] eqn:Ex.
  - assert (Hnot : ~ Forall (fun p => is_growth_xlsx p = false) data_dir).
    { intros Hall. apply Hfind in Hall. discriminate. }
    destruct (open_excel path) as [| xls].
    + cbn [fst snd]. split; [| split].
      * split; [intros [E | []]; discriminate | contradiction].
      * split; [reflexivity |]. intros _. right. left. now left.
      * auto.
    + pose proof (growth_reports_kind xls) as Hk.
      destruct (growth_loop xls) as [[| f fs] reported]; cbn [fst snd] in *.
      * split; [| split].
        -- split; [| contradiction]. intros Hin. apply in_app_or in Hin.
           destruct Hin as [Hin | [E | []]]; [| discriminate].
           apply Hk in Hin. destruct Hin as [nm E]. discriminate.
        -- split; [reflexivity |]. intros _. right. right.
           apply in_or_app. right. now left.
        -- auto.
      * split; [| split].
        -- split; [| contradiction]. intros Hin.
           apply Hk in Hin. destruct Hin as [nm E]. discriminate.
        -- split; [| discriminate].
           intros [Hin | [Hin | Hin]]; apply Hk in Hin; destruct Hin as [nm E]; discriminate.
        -- discriminate.
  - cbn [fst snd]. split; [| split].
    + split; [intros _; now apply Hfind | intros _; now left].
    + split; [reflexivity | intros _; left; now left].
    + auto.
Qed.

End GrowthWorkbook.

Lemma growth_sheet_keeps_every_row_witness :
  exists frame,
    growth_sheet_frames (lib := Sample.library) Sample.workbook "송도고" = [frame]
    /\ List.length frame = 2%nat.
Proof.
  destruct (@growth_sheet_keeps_every_row Sample.library Sample.workbook "송도고"
              Sample.songdo_cfg
              {| columns := Sample.growth_header;
                 rows := [Sample.plant "A1" 2; Sample.plant "A2" 3] |})
    as (frame & Ef & _ & Hlen & _); try reflexivity.
  exists frame. split; [exact Ef | exact Hlen].
Defined.

Lemma growth_load_reads_first_workbook_witness :
  load_and_preprocess_growth_data (lib := Sample.library)
    ([Sample.songdo_csv] ++ Sample.growth_xlsx :: [Sample.unnamed_plant_xlsx])
  = load_and_preprocess_growth_data (lib := Sample.library) [Sample.growth_xlsx].
Proof.
  apply (@growth_load_reads_first_workbook Sample.library [Sample.songdo_csv]
           [Sample.unnamed_plant_xlsx] Sample.growth_xlsx).
  - reflexivity.
  - repeat constructor.
Defined.

Lemma growth_sheet_failure_is_local_witness :
  growth_sheet_frames (lib := Sample.library) Sample.workbook "아라고" = []
  /\ growth_sheet_reports (lib := Sample.library) Sample.workbook "아라고"
     = [GrowthSheetLoadWarning "아라고"].
Proof.
  destruct (@growth_sheet_failure_is_local Sample.library Sample.workbook "아라고"
              {| EC_goal := Num.of_Z 4; color := "#ff7f0e" |} [] [])
    as (Hf & He & _).
  - reflexivity.
  - left. reflexivity.
  - split; [exact Hf | exact He].
Defined.

(** ** Selecting a school *)

Section Selection.
Context {lib : Library}.

Lemma env_result_no_columns (data_dir : list Path) :
  In NoValidEnvFiles (env_reported data_dir) <-> env_result data_dir = Script.NoColumns.
Proof.
  unfold env_reported, env_result, load_and_preprocess_env_data.
  pose proof (env_reports_kind data_dir) as Hk.
  destruct (env_loop data_dir) as [[| f fs] reported]; cbn [fst snd] in *.
  - split; [reflexivity |]. intros _. apply in_or_app. right. now left.
  - split; [| discriminate]. intros Hin. apply Hk in Hin.
    destruct Hin as [nm E]. discriminate.
Qed.

Lemma not_empty_of_records {R} (f : Script.frame R) :
  Script.records f <> [] -> Script.empty f = false.
Proof. destruct f as [| [| r rs]]; simpl; intros Hne; congruence. Qed.

(** X14. With "전체" selected the selection never raises.  With a school
    selected, lines 192-193 read the school column of both frames: when
    one loader has returned [pd.DataFrame()] after its missing-data
    report while the other table has rows, the script raises
    [KeyError]; when both loaders returned tables it does not. *)
Theorem selection_needs_both_tables (data_dir : list Path) (selected_school : string) :
  (selected_school = "전체"%string ->
   Script.select selected_school (env_result data_dir) (growth_result data_dir)
   <> Script.KeyError)
  /\ (selected_school <> "전체"%string ->
      (In NoValidEnvFiles (env_reported data_dir) -> growth_df data_dir <> [] ->
       Script.select selected_school (env_result data_dir) (growth_result data_dir)
       = Script.KeyError)
      /\ (growth_result data_dir = Script.NoColumns -> env_df data_dir <> [] ->
          Script.select selected_school (env_result data_dir) (growth_result data_dir)
          = Script.KeyError)
      /\ (env_result data_dir <> Script.NoColumns ->
          growth_result data_dir <> Script.NoColumns ->
          Script.select selected_school (env_result data_dir) (growth_result data_dir)
          <> Script.KeyError)).
Proof.
  split.
  - intros ->. unfold Script.select.
    destruct (Script.empty (env_result data_dir) && Script.empty (growth_result data_dir));
      [discriminate |].
    rewrite String.eqb_refl. discriminate.
  - intros Hsel. apply String.eqb_neq in Hsel.
    unfold Script.select. rewrite Hsel. cbn [negb].
    split; [| split].
    + intros Hrep Hrows. apply env_result_no_columns in Hrep. rewrite Hrep.
      rewrite <- growth_result_records in Hrows.
      rewrite (not_empty_of_records _ Hrows). reflexivity.
    + intros Hg Hrows. rewrite <- env_result_records in Hrows.
      rewrite (not_empty_of_records _ Hrows), Hg. cbn [andb].
      destruct (env_result data_dir); reflexivity.
    + intros He Hg.
      destruct (env_result data_dir) as [| es]; [contradiction |].
      destruct (growth_result data_dir) as [| gs]; [contradiction |].
      destruct (Script.empty (Script.Table es) && Script.empty (Script.Table gs));
        discriminate.
Qed.

End Selection.

(** The sample directory without its environment files: the growth
    workbook loads, no environment CSV does, and selecting a school
    raises. *)
Lemma selection_needs_both_tables_witness :
  Script.select "송도고" (env_result (lib := Sample.library) [Sample.growth_xlsx])
                (growth_result (lib := Sample.library) [Sample.growth_xlsx])
  = Script.KeyError.
Proof.
  destruct (proj2 (selection_needs_both_tables (lib := Sample.library)
                     [Sample.growth_xlsx] "송도고")) as [Hraise _].
  - intros E. apply String.eqb_eq in E. vm_compute in E. discriminate.
  - apply Hraise.
    + vm_compute. left. reflexivity.
    + vm_compute. discriminate.
Defined.

(** ** The summary of a selected school *)

Section OneKey.
Context {K R : Type} `{KeyLaws K}.
Variable key : R -> K.

Lemma uniques_of_one_key (k : K) (ks seen : list K) :
  Forall (fun x => x = k) ks ->
  uniques seen ks
  = if existsb (key_eqb k) seen then []
    else match ks with [] => [] | _ :: _ => [k] end.
Proof.
  intros Hall. revert seen. induction Hall as [| x ks -> _ IH]; intros seen; simpl.
  - now destruct (existsb (key_eqb k) seen).
  - destruct (existsb (key_eqb k) seen) eqn:E.
    + rewrite IH, E. reflexivity.
    + rewrite IH. simpl. now rewrite key_eqb_refl.
Qed.

Lemma filter_key_of_NoDup (k : K) (ks : list K) :
  NoDup ks ->
  filter (fun x => key_eqb x k) ks = if existsb (key_eqb k) ks then [k] else [].
Proof.
  induction ks as [| a ks IH]; simpl; intros Hnd; [reflexivity |].
  inversion Hnd as [| ? ? Hna Hnd']; subst. rewrite (IH Hnd').
  destruct (key_eqb a k) eqn:E.
  - apply key_eqb_eq in E. subst a. rewrite key_eqb_refl. simpl.
    destruct (existsb (key_eqb k) ks) eqn:Ex; [| reflexivity].
    apply existsb_key_eqb in Ex. contradiction.
  - assert (E' : key_eqb k a = false).
    { apply key_eqb_neq. intros ->. now rewrite key_eqb_refl in E. }
    rewrite E'. reflexivity.
Qed.

Lemma group_rows_idem (k : K) (rows : list R) :
  group_rows key k (group_rows key k rows) = group_rows key k rows.
Proof.
  unfold group_rows. induction rows as [| a rows IH]; simpl; [reflexivity |].
  destruct (key_eqb (key a) k) eqn:E; simpl; rewrite ?E, IH; reflexivity.
Qed.

(** Grouping the rows of one key gives that key's group of the whole
    table, and nothing when the key has no rows. *)
Lemma groupby_of_one_key (k : K) (rows : list R) :
  groupby key (group_rows key k rows)
  = filter (fun g => key_eqb (fst g) k) (groupby key rows).
Proof.
  unfold groupby.
  assert (Hf : forall ks,
             filter (fun g : K * list R => key_eqb (fst g) k)
                    (map (fun k' => (k', group_rows key k' rows)) ks)
             = map (fun k' => (k', group_rows key k' rows))
                   (filter (fun x => key_eqb x k) ks)).
  { induction ks as [| a ks IH]; simpl; [reflexivity |].
    destruct (key_eqb a k); simpl; now rewrite IH. }
  rewrite Hf, (filter_key_of_NoDup k (group_keys_NoDup key rows)).
  assert (Hall : Forall (fun x => x = k) (map key (group_rows key k rows))).
  { apply Forall_forall. intros x Hx. apply in_map_iff in Hx.
    destruct Hx as (r & <- & Hr). now apply group_rows_In in Hr. }
  assert (Hin : existsb (key_eqb k) (group_keys key rows) = true
                <-> group_rows key k rows <> []).
  { rewrite existsb_key_eqb, group_keys_In. split.
    - apply group_rows_nonempty.
    - intros Hne. destruct (group_rows key k rows) as [| r rest] eqn:Eg; [contradiction |].
      assert (Hr : In r (group_rows key k rows)) by (rewrite Eg; now left).
      apply group_rows_In in Hr. destruct Hr as [Hr <-]. now apply in_map. }
  unfold group_keys at 1. rewrite (uniques_of_one_key [] Hall). cbn [existsb].
  pose proof (group_rows_idem k rows) as Hidem.
  remember (group_rows key k rows) as F eqn:EF.
  destruct F as [| r rest].
  - cbn [map sort_keys fold_right].
    destruct (existsb (key_eqb k) (group_keys key rows)); [| reflexivity].
    exfalso. now apply (proj1 Hin).
  - rewrite (proj2 Hin) by discriminate.
    cbn [map sort_keys fold_right insert_key]. rewrite Hidem, <- EF. reflexivity.
Qed.

End OneKey.

(** X15. The summary of the rows of one selected school is that
    school's row of the summary of the whole table, and is empty when
    the school has no rows: selecting a school and then aggregating
    gives what aggregating and then selecting the school gives. *)
Theorem summary_of_selected_school
        (selected_school : string) (env_tbl : list EnvironmentRecord.t) :
  selected_school <> "전체"%string ->
  env_summary (Dashboard.filter_env selected_school env_tbl)
  = filter (fun s => String.eqb (EnvironmentSummary.school s) selected_school)
           (env_summary env_tbl).
Proof.
  intros Hsel. apply String.eqb_neq in Hsel.
  unfold Dashboard.filter_env. rewrite Hsel.
  change (filter (fun r => String.eqb (EnvironmentRecord.school r) selected_school) env_tbl)
    with (group_rows EnvironmentRecord.school selected_school env_tbl).
  unfold env_summary. rewrite groupby_of_one_key.
  generalize (groupby EnvironmentRecord.school env_tbl). intros gs.
  induction gs as [| [k grp] gs IH]; [reflexivity |].
  cbn [filter map fst env_summary_row EnvironmentSummary.school].
  change (key_eqb k selected_school) with (String.eqb k selected_school).
  destruct (String.eqb k selected_school); cbn [map]; now rewrite IH.
Qed.

Lemma summary_of_selected_school_witness :
  env_summary (Dashboard.filter_env "송도고" Sample.two_schools_env)
  = filter (fun s => String.eqb (EnvironmentSummary.school s) "송도고")
           (env_summary Sample.two_schools_env).
Proof.
  apply summary_of_selected_school.
  intros E. apply String.eqb_eq in E. vm_compute in E. discriminate.
Defined.

(** ** The best EC of the growth tab *)

Lemma Num_leb_refl (x : Qc) : Num.leb x x = true.
Proof. destruct (Num_leb_total x x); assumption. Qed.

Lemma max_step_fold (vs : list (option Qc)) (m : option Qc) :
  let r := fold_left Script.max_step vs m in
  (r = m \/ In r vs)
  /\ (forall x, m = Some x \/ In (Some x) vs -> exists y, r = Some y /\ Num.leb x y = true).
Proof.
  revert m. induction vs as [| v vs IH]; intros m; simpl.
  - split; [now left |]. intros x [-> | []]. exists x. split; [reflexivity |].
    apply Num_leb_refl.
  - destruct (IH (Script.max_step m v)) as [Hat Hge]. split.
    + destruct Hat as [-> | Hin]; [| right; now right].
      destruct v as [x |]; [| now left]. destruct m as [y |]; simpl.
      * destruct (Num.leb y x); [right; now left | now left].
      * right. now left.
    + intros x Hx.
      assert (Hstep : exists z, Script.max_step m v = Some z /\ Num.leb x z = true
                                \/ In (Some x) vs).
      { destruct Hx as [-> | [-> | Hin]].
        - destruct v as [w |]; simpl.
          + destruct (Num.leb x w) eqn:E.
            * exists w. left. auto.
            * exists x. left. split; [reflexivity | apply Num_leb_refl].
          + exists x. left. split; [reflexivity | apply Num_leb_refl].
        - destruct m as [y |]; simpl.
          + destruct (Num.leb y x) eqn:E.
            * exists x. left. split; [reflexivity | apply Num_leb_refl].
            * exists y. left. split; [reflexivity |].
              destruct (Num_leb_total x y) as [L | L]; [exact L | congruence].
          + exists x. left. split; [reflexivity | apply Num_leb_refl].
        - exists x. now right. }
      destruct Hstep as (z & [[Ez Hz] | Hin]).
      * destruct (Hge z (or_introl Ez)) as (y & Ey & Hy).
        exists y. split; [exact Ey |]. eapply Num_leb_trans; eassumption.
      * apply Hge. now right.
Qed.

(** X16. The label the growth tab highlights is the label of a summary
    row whose mean fresh weight is not missing and is at least the mean
    fresh weight of every other row; the lookup raises exactly when the
    mean fresh weight of every row is missing. *)
Theorem best_label_has_largest_mean (growth_summary_df : list (GrowthSummary.t string)) :
  (forall label,
      Script.best_ec_label growth_summary_df = Returns label ->
      exists s w,
        In s growth_summary_df
        /\ GrowthSummary.ec_goal s = label
        /\ GrowthSummary.avg_fresh_weight s = Some w
        /\ forall s' w', In s' growth_summary_df ->
                         GrowthSummary.avg_fresh_weight s' = Some w' ->
                         Num.leb w' w = true)
  /\ (Script.best_ec_label growth_summary_df = Raises
      <-> forall s, In s growth_summary_df -> GrowthSummary.avg_fresh_weight s = None).
Proof.
  unfold Script.best_ec_label, Script.series_max.
  set (vs := map GrowthSummary.avg_fresh_weight growth_summary_df).
  destruct (max_step_fold vs None) as [Hat Hge]. cbv zeta in Hat, Hge.
  set (best := fold_left Script.max_step vs None) in *.
  set (sel := filter (fun s => Script.eq_value (GrowthSummary.avg_fresh_weight s) best)
                     growth_summary_df).
  split.
  - intros label Hret. destruct sel as [| s rest] eqn:Es; [discriminate |].
    injection Hret as <-.
    assert (Hs : In s sel) by (rewrite Es; now left).
    unfold sel in Hs. apply filter_In in Hs. destruct Hs as [Hin Heq].
    unfold Script.eq_value in Heq.
    destruct (GrowthSummary.avg_fresh_weight s) as [w |] eqn:Ew; [| discriminate].
    destruct best as [y |] eqn:Eb; [| discriminate].
    apply Num_eqb_eq in Heq. subst y.
    exists s, w. repeat split; auto.
    intros s' w' Hin' Ew'.
    destruct (Hge w') as (y & Ey & Hy).
    { right. unfold vs. rewrite <- Ew'. now apply in_map. }
    injection Ey as <-. exact Hy.
  - split.
    + intros Hraise s Hin.
      destruct (GrowthSummary.avg_fresh_weight s) as [w |] eqn:Ew; [| reflexivity].
      exfalso.
      destruct (Hge w) as (y & Ey & _).
      { right. unfold vs. rewrite <- Ew. now apply in_map. }
      destruct Hat as [E | Hin']; [congruence |].
      rewrite Ey in Hin'. unfold vs in Hin'. apply in_map_iff in Hin'.
      destruct Hin' as (s0 & Es0 & Hin0).
      assert (Hs0 : In s0 sel).
      { unfold sel. apply filter_In. split; [exact Hin0 |].
        rewrite Es0, Ey. simpl. now apply Num_eqb_eq. }
      destruct sel; [contradiction | discriminate].
    + intros Hnone.
      assert (Hsel : sel = []).
      { unfold sel. destruct (filter _ growth_summary_df) as [| s rest] eqn:Ef; [reflexivity |].
        assert (Hs : In s (s :: rest)) by now left.
        rewrite <- Ef in Hs. apply filter_In in Hs. destruct Hs as [Hin Heq].
        rewrite (Hnone s Hin) in Heq. discriminate. }
      now rewrite Hsel.
Qed.

Lemma best_label_has_largest_mean_witness :
  exists s w,
    In s (growth_summary Sample.scenario3_growth)
    /\ GrowthSummary.ec_goal s = "2.0 EC"%string
    /\ GrowthSummary.avg_fresh_weight s = Some w
    /\ forall s' w', In s' (growth_summary Sample.scenario3_growth) ->
                     GrowthSummary.avg_fresh_weight s' = Some w' ->
                     Num.leb w' w = true.
Proof.
  apply (proj1 (best_label_has_largest_mean (growth_summary Sample.scenario3_growth))
               "2.0 EC"%string).
  vm_compute. reflexivity.
Defined.

(** ** Every candidate is loaded or reported *)

Section Accounting.
Context {lib : Library}.

Lemma env_file_account (path : Path) :
  (List.length (env_file_frames path) + List.length (env_file_reports path))%nat
  = if is_env_csv path && is_some (lookup (school_of_file path) EC_MAPPING)
    then 1%nat else 0%nat.
Proof.
  unfold env_file_frames, env_file_reports, env_step.
  destruct (is_env_csv path); [| reflexivity].
  destruct (lookup (school_of_file path) EC_MAPPING) as [cfg |]; [| reflexivity].
  destruct (read_env_csv (school_of_file path) cfg path); reflexivity.
Qed.

Lemma growth_sheet_account (xls : ExcelFile) (sheet_name : string) :
  (List.length (growth_sheet_frames xls sheet_name)
   + List.length (growth_sheet_reports xls sheet_name))%nat
  = if is_some (lookup sheet_name EC_MAPPING) then 1%nat else 0%nat.
Proof.
  unfold growth_sheet_frames, growth_sheet_reports, growth_step.
  destruct (lookup sheet_name EC_MAPPING) as [cfg |]; [| reflexivity].
  destruct (read_growth_sheet xls sheet_name cfg); reflexivity.
Qed.

Lemma account_sum {A B C} (f : A -> list B) (g : A -> list C) (p : A -> bool) (l : list A) :
  (forall a, (List.length (f a) + List.length (g a))%nat = if p a then 1%nat else 0%nat) ->
  (List.length (flat_map f l) + List.length (flat_map g l))%nat
  = List.length (filter p l).
Proof.
  intros Hone. induction l as [| a l IH]; [reflexivity |].
  cbn [flat_map filter]. rewrite !length_app.
  specialize (Hone a). destruct (p a); cbn [List.length]; lia.
Qed.

(** X17. No candidate is lost and none is counted twice.  Every
    environment CSV of a registered school either adds one frame or is
    reported by one per-file error, so frames and errors together are
    as many as those files; every sheet with a registered name either
    adds one frame or is reported by one warning. *)
Theorem every_candidate_loaded_or_reported (data_dir : list Path) (xls : ExcelFile) :
  (List.length (fst (env_loop data_dir)) + List.length (snd (env_loop data_dir)))%nat
  = List.length
      (filter (fun p => is_env_csv p && is_some (lookup (school_of_file p) EC_MAPPING))
              data_dir)
  /\ (List.length (fst (growth_loop xls)) + List.length (snd (growth_loop xls)))%nat
     = List.length
         (filter (fun nm => is_some (lookup nm EC_MAPPING))
                 (map normalize_NFC (sheet_names xls))).
Proof.
  rewrite env_loop_eq, growth_loop_eq. cbn [fst snd]. split.
  - apply account_sum. apply env_file_account.
  - apply account_sum. apply growth_sheet_account.
Qed.

End Accounting.

(** ** Labels of integral EC targets *)

Lemma digits_lack (c : ascii) (d : Decimal.uint) :
  (48 <=? nat_of_ascii c)%nat && (nat_of_ascii c <=? 57)%nat = false ->
  lacks c (NilEmpty.string_of_uint d) = true.
Proof.
  intros Hc.
  assert (Hne : forall a, (48 <=? nat_of_ascii a)%nat && (nat_of_ascii a <=? 57)%nat = true ->
                          Ascii.eqb a c = false).
  { intros a Ha. apply Ascii.eqb_neq. intros ->. congruence. }
  induction d; cbn [NilEmpty.string_of_uint lacks]; try reflexivity;
    rewrite IHd, Hne; reflexivity.
Qed.

Lemma lacks_app (c : ascii) (a b : string) :
  lacks c (a ++ b) = lacks c a && lacks c b.
Proof.
  induction a as [| x a IH]; simpl; [reflexivity |].
  rewrite IH. now rewrite andb_assoc.
Qed.

Lemma str_of_nonneg_digits (n : Z) :
  Label.str_of_nonneg n = NilEmpty.string_of_uint (N.to_uint (Z.to_N n)).
Proof.
  unfold Label.str_of_nonneg, NilZero.string_of_uint.
  destruct (Z.to_N n) as [| p]; [reflexivity |].
  simpl N.to_uint. pose proof (DecimalPos.Unsigned.to_uint_nonnil p) as Hp.
  destruct (Pos.to_uint p); [contradiction | reflexivity ..].
Qed.

Lemma digits_value_str (n : Z) :
  (0 <= n)%Z -> Label.digits_value (Label.str_of_nonneg n) = Some n.
Proof.
  intros Hn. unfold Label.digits_value.
  rewrite str_of_nonneg_digits, NilEmpty.usu. simpl.
  now rewrite DecimalN.Unsigned.of_to, Z2N.id.
Qed.

Lemma str_of_nonneg_not_empty (n : Z) : Label.str_of_nonneg n <> ""%string.
Proof.
  rewrite str_of_nonneg_digits.
  destruct (Z.to_N n) as [| p]; [discriminate |].
  simpl N.to_uint. pose proof (DecimalPos.Unsigned.to_uint_nonnil p) as Hp.
  destruct (Pos.to_uint p); [contradiction | discriminate ..].
Qed.

Lemma split_at_dot_app (a b : string) :
  lacks "." a = true -> Label.split_at_dot (a ++ String "." b) = (a, Some b).
Proof.
  induction a as [| c a IH]; simpl; intros Hl; [reflexivity |].
  apply andb_prop in Hl. destruct Hl as [Hc Ha]. apply negb_true_iff in Hc.
  rewrite Hc, (IH Ha). reflexivity.
Qed.

Lemma float_of_str_unsigned (s : string) :
  lacks "-" s = true -> Label.float_of_str s = Label.unsigned_float s.
Proof.
  destruct s as [| c s]; [reflexivity |]. simpl. intros Hl.
  apply andb_prop in Hl. destruct Hl as [Hc _]. apply negb_true_iff in Hc.
  destruct c as [[] [] [] [] [] [] [] []]; try reflexivity; discriminate.
Qed.

Lemma of_Z_this (z : Z) : this (Num.of_Z z) = inject_Z z.
Proof.
  unfold Num.of_Z, Q2Qc, inject_Z. cbn [this]. unfold Qred.
  pose proof (Z.ggcd_gcd z 1) as Hg. pose proof (Z.ggcd_correct_divisors z 1) as Hd.
  destruct (Z.ggcd z 1) as [g [a b]]. cbn [fst snd] in *.
  rewrite Z.gcd_1_r in Hg. subst g. destruct Hd as [Ha Hb].
  rewrite Z.mul_1_l in Ha, Hb. subst a b. reflexivity.
Qed.

Lemma unsigned_float_integral (n : Z) :
  (0 <= n)%Z ->
  Label.unsigned_float (Label.str_of_nonneg n ++ ".0") = Some (Num.of_Z n).
Proof.
  intros Hn. unfold Label.unsigned_float.
  rewrite split_at_dot_app.
  - rewrite (digits_value_str Hn). cbn [String.eqb Ascii.eqb andb].
    rewrite andb_false_r. cbn. f_equal.
    apply Qc_is_canon. unfold Qcplus, Num.frac, Q2Qc. cbn [this].
    rewrite !Qred_correct, of_Z_this. unfold Qeq, Qplus, inject_Z. simpl. lia.
  - rewrite str_of_nonneg_digits. now apply digits_lack.
Qed.

(** The text of an integral target parses back to the target. *)
Lemma integral_label_parses (z : Z) :
  Label.float_of_str (Text.split_head " " (Label.ec_label (Num.of_Z z)))
  = Some (Num.of_Z z).
Proof.
  unfold Label.ec_label, Label.str_of_float. rewrite of_Z_this. cbn [Qnum Qden inject_Z].
  rewrite Z.mod_1_r, Z.div_1_r. cbn [Label.frac_digits Z.eqb String.eqb].
  assert (Hsp : forall sign,
             lacks " " sign = true ->
             Text.split_head " " ((sign ++ Label.str_of_nonneg (Z.abs z) ++ "." ++ "0") ++ " EC")
             = (sign ++ Label.str_of_nonneg (Z.abs z) ++ ".0")%string).
  { intros sign Hs. apply (split_head_app " " _ "EC").
    rewrite !lacks_app, Hs, str_of_nonneg_digits, digits_lack; reflexivity. }
  destruct (z <? 0)%Z eqn:Hneg.
  - rewrite (Hsp "-"%string eq_refl). cbn [append Label.float_of_str].
    rewrite unsigned_float_integral by lia. cbn [option_map]. f_equal.
    apply Z.ltb_lt in Hneg. apply Qc_is_canon. unfold Qcopp, Q2Qc. cbn [this].
    rewrite Qred_correct, !of_Z_this. unfold Qeq, Qopp, inject_Z. simpl. lia.
  - rewrite (Hsp ""%string eq_refl). cbn [append].
    rewrite float_of_str_unsigned.
    + apply Z.ltb_ge in Hneg. rewrite unsigned_float_integral by lia.
      now rewrite Z.abs_eq.
    + rewrite lacks_app, str_of_nonneg_digits, digits_lack; reflexivity.
Qed.

(** X18. In any registry whose EC targets are whole numbers of
    magnitude at most 2^53, which a float holds exactly, and pairwise
    distinct, the label of a school's target leads back to that school:
    the text before the first blank parses to the target and the
    reverse search of the registry returns the school. *)
Theorem integral_label_round_trip
        (mapping : list (string * SchoolConfig)) (school : string) (cfg : SchoolConfig) :
  Forall (fun e => whole_float (EC_goal (snd e))) mapping ->
  NoDup (map (fun e => EC_goal (snd e)) mapping) ->
  In (school, cfg) mapping ->
  Label.float_of_str (Text.split_head " " (Label.ec_label (EC_goal cfg))) = Some (EC_goal cfg)
  /\ Label.school_of_label mapping (Label.ec_label (EC_goal cfg)) = Some school.
Proof.
  intros Hwhole Hnd Hin.
  assert (Hp : Label.float_of_str (Text.split_head " " (Label.ec_label (EC_goal cfg)))
               = Some (EC_goal cfg)).
  { rewrite Forall_forall in Hwhole. destruct (Hwhole _ Hin) as (z & _ & Ez).
    cbn [snd] in Ez. rewrite Ez. apply integral_label_parses. }
  split; [exact Hp |].
  unfold Label.school_of_label. rewrite Hp.
  now rewrite (@schools_with_goal_hd mapping school cfg Hnd Hin).
Qed.

Lemma schools_with_goal_first (before after : list (string * SchoolConfig))
      (first_school : string) (first_cfg : SchoolConfig) :
  Forall (fun e => EC_goal (snd e) <> EC_goal first_cfg) before ->
  hd_error (Label.schools_with_goal (before ++ (first_school, first_cfg) :: after)
                                    (EC_goal first_cfg))
  = Some first_school.
Proof.
  unfold Label.schools_with_goal. intros Hb.
  induction Hb as [| e before He _ IH]; cbn [app filter].
  - cbn [snd]. rewrite (proj2 (Num_eqb_eq _ _) eq_refl). reflexivity.
  - destruct (Num.eqb (EC_goal (snd e)) (EC_goal first_cfg)) eqn:E; [| exact IH].
    apply Num_eqb_eq in E. contradiction.
Qed.

(** X19. When two schools of a registry share an EC target (a whole
    number of magnitude at most 2^53, like every target of the
    registry), the reverse search of line 386 returns, for the label of
    either, the first school of the registry with that target: the
    label of the later school leads to the earlier school. *)
Theorem shared_target_finds_first_school
        (before after : list (string * SchoolConfig))
        (first_school : string) (first_cfg : SchoolConfig)
        (school : string) (cfg : SchoolConfig) :
  Forall (fun e => whole_float (EC_goal (snd e)))
         (before ++ (first_school, first_cfg) :: after) ->
  NoDup (map fst (before ++ (first_school, first_cfg) :: after)) ->
  Forall (fun e => EC_goal (snd e) <> EC_goal first_cfg) before ->
  In (school, cfg) after ->
  EC_goal cfg = EC_goal first_cfg ->
  Label.school_of_label (before ++ (first_school, first_cfg) :: after)
                        (Label.ec_label (EC_goal cfg))
  = Some first_school
  /\ first_school <> school.
Proof.
  intros Hwhole Hkeys Hbefore Hin Eg. split.
  - unfold Label.school_of_label.
    rewrite Forall_forall in Hwhole.
    destruct (Hwhole (first_school, first_cfg)) as (z & _ & Ez).
    { apply in_or_app. right. now left. }
    cbn [snd] in Ez. rewrite Eg, Ez, integral_label_parses, <- Ez.
    now apply schools_with_goal_first.
  - intros ->. rewrite map_app in Hkeys. apply NoDup_remove_2 in Hkeys.
    apply Hkeys. apply in_or_app. right.
    apply (in_map fst _ _ Hin).
Qed.

Lemma integral_label_round_trip_witness :
  Label.school_of_label
    [("가"%string, {| EC_goal := Num.of_Z 12; color := "#000000" |});
     ("나"%string, {| EC_goal := Num.of_Z 3; color := "#ffffff" |})]
    (Label.ec_label (Num.of_Z 12))
  = Some "가"%string.
Proof.
  apply (@integral_label_round_trip
           [("가"%string, {| EC_goal := Num.of_Z 12; color := "#000000" |});
            ("나"%string, {| EC_goal := Num.of_Z 3; color := "#ffffff" |})]
           "가" {| EC_goal := Num.of_Z 12; color := "#000000" |}).
  - repeat constructor.
    + exists 12%Z. split; [vm_compute; discriminate | reflexivity].
    + exists 3%Z. split; [vm_compute; discriminate | reflexivity].
  - simpl. constructor; [| constructor; [| constructor]].
    + intros [E | []]. apply Num_eqb_eq in E. vm_compute in E. discriminate.
    + intros [].
  - simpl. auto.
Defined.

(** Three schools, the second and third with the same target: the label
    of the third leads to the second. *)
Lemma shared_target_finds_first_school_witness :
  Label.school_of_label
    [("가"%string, {| EC_goal := Num.of_Z 1; color := "#000000" |});
     ("나"%string, {| EC_goal := Num.of_Z 2; color := "#777777" |});
     ("다"%string, {| EC_goal := Num.of_Z 2; color := "#ffffff" |})]
    (Label.ec_label (EC_goal {| EC_goal := Num.of_Z 2; color := "#ffffff" |}))
  = Some "나"%string
  /\ "나"%string <> "다"%string.
Proof.
  apply (@shared_target_finds_first_school
           [("가"%string, {| EC_goal := Num.of_Z 1; color := "#000000" |})]
           [("다"%string, {| EC_goal := Num.of_Z 2; color := "#ffffff" |})]
           "나" {| EC_goal := Num.of_Z 2; color := "#777777" |}
           "다" {| EC_goal := Num.of_Z 2; color := "#ffffff" |}).
  - repeat constructor.
    + exists 1%Z. split; [vm_compute; discriminate | reflexivity].
    + exists 2%Z. split; [vm_compute; discriminate | reflexivity].
    + exists 2%Z. split; [vm_compute; discriminate | reflexivity].
  - simpl. constructor; [| constructor; [| constructor; [| constructor]]].
    + intros [E | [E | []]]; apply String.eqb_eq in E; vm_compute in E; discriminate.
    + intros [E | []]. apply String.eqb_eq in E. vm_compute in E. discriminate.
    + intros [].
  - constructor; [| constructor]. cbn [snd EC_goal].
    intros E. apply Num_eqb_eq in E. vm_compute in E. discriminate.
  - simpl. auto.
  - reflexivity.
Defined.

(** ** Rows of the growth table *)

Section GrowthRows.
Context {lib : Library}.

Lemma growth_sheet_length (xls : ExcelFile) (sheet_name : string) :
  List.length (concat (growth_sheet_frames xls sheet_name)) = sheet_rows xls sheet_name.
Proof.
  unfold growth_sheet_frames, growth_step, read_growth_sheet, sheet_rows.
  destruct (lookup sheet_name EC_MAPPING) as [cfg |]; [| reflexivity].
  destruct (parse xls sheet_name) as [| df]; [reflexivity |].
  destruct (List.length (columns df) =? 5)%nat; [| reflexivity].
  cbn [fst app concat]. now rewrite app_nil_r, length_map.
Qed.

(** X20. The growth loader drops no row: the rows its loop collects
    from a workbook are exactly as many as the parsed frames of the
    sheets that load have together, a sheet listed twice under names
    with the same normalized form counting twice. *)
Theorem growth_table_keeps_every_row (xls : ExcelFile) :
  List.length (concat (fst (growth_loop xls)))
  = sum_nat (map (sheet_rows xls) (map normalize_NFC (sheet_names xls))).
Proof.
  rewrite growth_loop_eq. cbn [fst].
  induction (map normalize_NFC (sheet_names xls)) as [| nm rest IH]; [reflexivity |].
  cbn [flat_map map]. rewrite concat_app, length_app, sum_nat_cons, IH.
  now rewrite growth_sheet_length.
Qed.

End GrowthRows.

Lemma growth_load_outcomes_witness :
  growth_df (lib := Sample.library) [Sample.songdo_csv] = []
  /\ growth_summary_df (lib := Sample.library) [Sample.songdo_csv] = [].
Proof.
  apply (proj2 (proj2 (growth_load_outcomes (lib := Sample.library) [Sample.songdo_csv]))).
  reflexivity.
Defined.
